(** * Zen-GPT: the Flask facade over the Notion client (src/main.py)

    A shallow embedding of [main.py]: JSON values as Python sees them after
    [request.get_json], the four route handlers as state-passing functions
    over an abstract vendor, and the retry helper [safe_notion_call]. *)

From Stdlib Require Import ZArith Ascii String Floats.PrimFloat.
From stdpp Require Import gmap strings list fin_maps pretty.
From Equations Require Import Equations.

Set Warnings "-register-all".
Local Open Scope Z_scope.

(** ** Python values *)

(** What [json.loads] produces, and what the handlers build with dict and
    list literals.  A [dict] is a [gmap]: keys are unique and the properties
    below never depend on the order in which [.items()] yields them. *)
Inductive json :=
| JNull
| JBool (b : bool)
| JInt (n : Z)
| JFloat (f : float)
| JStr (s : string)
| JList (l : list json)
| JDict (m : gmap string json).

(** An exception instance caught by [except Exception]: its class and what
    [str(e)] returns. *)
Record exn := Exn { exn_class : string; exn_str : string }.

Inductive result (A : Type) :=
| Ok (a : A)
| Raise (e : exn).

Arguments Ok {A} a.
Arguments Raise {A} e.

#[global] Instance result_ret : MRet result := @Ok.

#[global] Instance result_bind : MBind result := λ A B k r,
  match r with
  | Ok a => k a
  | Raise e => Raise e
  end.

(** [bool(x)] *)
Definition truthy (x : json) : bool :=
  match x with
  | JNull => false
  | JBool b => b
  | JInt n => negb (n =? 0)
  | JFloat f => negb (PrimFloat.eqb f 0%float)
  | JStr s => negb (String.eqb s "")
  | JList l => match l with [] => false | _ => true end
  | JDict m => negb (bool_decide (m = ∅))
  end.

(** [type(x).__name__] *)
Definition type_name (x : json) : string :=
  match x with
  | JNull => "NoneType"
  | JBool _ => "bool"
  | JInt _ => "int"
  | JFloat _ => "float"
  | JStr _ => "str"
  | JList _ => "list"
  | JDict _ => "dict"
  end.

Definition AttributeError (x : json) (attr : string) : exn :=
  Exn "AttributeError"
      ("'" +:+ type_name x +:+ "' object has no attribute '" +:+ attr +:+ "'").

(** [str(KeyError(k))] is [repr(k)]. *)
Definition KeyError (k : string) : exn := Exn "KeyError" ("'" +:+ k +:+ "'").

Definition TypeError (msg : string) : exn := Exn "TypeError" msg.

(** [a or b] *)
Definition py_or (a b : json) : json := if truthy a then a else b.

(** [x == s] for a str literal [s] *)
Definition py_eq_str (x : json) (s : string) : bool :=
  match x with
  | JStr t => String.eqb t s
  | _ => false
  end.

(** [x.get(k, d)]: only dict has the method. *)
Definition py_get_default (x : json) (k : string) (d : json) : result json :=
  match x with
  | JDict m => Ok (default d (m !! k))
  | _ => Raise (AttributeError x "get")
  end.

(** [x.get(k)] *)
Definition py_get (x : json) (k : string) : result json :=
  py_get_default x k JNull.

(** [x.items()]: the mapping whose pairs the loop visits. *)
Definition py_items (x : json) : result (gmap string json) :=
  match x with
  | JDict m => Ok m
  | _ => Raise (AttributeError x "items")
  end.

(** [x[k]] for a str key [k] *)
Definition py_getitem (x : json) (k : string) : result json :=
  match x with
  | JDict m =>
      match m !! k with
      | Some v => Ok v
      | None => Raise (KeyError k)
      end
  | JList _ => Raise (TypeError "list indices must be integers or slices, not str")
  | JStr _ => Raise (TypeError "string indices must be integers, not 'str'")
  | _ => Raise (TypeError ("'" +:+ type_name x +:+ "' object is not subscriptable"))
  end.

(** [x[0]] *)
Definition py_getitem0 (x : json) : result json :=
  match x with
  | JList (v :: _) => Ok v
  | JList [] => Raise (Exn "IndexError" "list index out of range")
  | JStr (String c _) => Ok (JStr (String c ""))
  | JStr "" => Raise (Exn "IndexError" "string index out of range")
  | JDict _ => Raise (Exn "KeyError" "0")
  | _ => Raise (TypeError ("'" +:+ type_name x +:+ "' object is not subscriptable"))
  end.

(** [for r in x]: the elements visited. *)
Definition py_iter (x : json) : result (list json) :=
  match x with
  | JList l => Ok l
  | JDict m => Ok (JStr <$> (map_to_list m).*1)
  | JStr s => Ok ((λ c, JStr (String c "")) <$> String.list_ascii_of_string s)
  | _ => Raise (TypeError ("'" +:+ type_name x +:+ "' object is not iterable"))
  end.

(** [s.lower()].  Characters are bytes here and only A-Z fold; no character
    outside ASCII lower-cases to a letter of "tree" or "status", so the
    comparisons of [insert_row] are decided as in Python. *)
Definition lower_char (c : ascii) : ascii :=
  let n := nat_of_ascii c in
  if (65 <=? n)%nat && (n <=? 90)%nat then ascii_of_nat (n + 32) else c.

Fixpoint lower (s : string) : string :=
  match s with
  | "" => ""
  | String c s' => String (lower_char c) (lower s')
  end.

(** Dict literals. *)
Definition dict1 (k : string) (v : json) : json := JDict {[ k := v ]}.

Definition dict2 (k1 : string) (v1 : json) (k2 : string) (v2 : json) : json :=
  JDict (<[ k2 := v2 ]> {[ k1 := v1 ]}).

(** ** Field-type mapping (create_table, lines 41-52; update_table, 114-122) *)

Definition title_fragment : json := dict1 "title" (JDict ∅).

Definition rich_text_fragment : json := dict1 "rich_text" (JDict ∅).

Definition select_fragment : json := dict1 "select" (JDict ∅).

Definition select_options_fragment : json :=
  dict1 "select" (dict1 "options" (JList [])).

(** The if/elif chain of [create_table]. *)
Definition create_field (ftype : json) : json :=
  if py_eq_str ftype "title" then title_fragment
  else if py_eq_str ftype "rich_text" then rich_text_fragment
  else if py_eq_str ftype "select" then select_fragment
  else rich_text_fragment.

(** The if/elif chain of [update_table]. *)
Definition update_field (ftype : json) : json :=
  if py_eq_str ftype "title" then title_fragment
  else if py_eq_str ftype "rich_text" then rich_text_fragment
  else if py_eq_str ftype "select" then select_options_fragment
  else rich_text_fragment.

(** [for name, ftype in fields.items(): properties[name] = ...] *)
Definition assign_fields (field : json → json) (fields : gmap string json)
  : gmap string json :=
  map_fold (λ name ftype properties, <[ name := field ftype ]> properties)
           ∅ fields.

(** ["title" in prop], for the dict fragments built above. *)
Definition has_key (k : string) (prop : json) : bool :=
  match prop with
  | JDict m => bool_decide (is_Some (m !! k))
  | _ => false
  end.

(** [any("title" in prop for prop in properties.values())] *)
Definition any_title (properties : gmap string json) : bool :=
  existsb (has_key "title") (map_to_list properties).*2.

(** Lines 40-52: the [properties] passed to [notion.databases.create]. *)
Definition create_table_properties (fields : gmap string json)
  : gmap string json :=
  let properties := assign_fields create_field fields in
  if negb (any_title properties)
  then <[ "Name" := title_fragment ]> properties
  else properties.

(** Lines 112-122: [update_payload["properties"]]. *)
Definition update_table_properties (new_fields : gmap string json)
  : gmap string json :=
  assign_fields update_field new_fields.

(** ** Row values (insert_row, lines 79-86) *)

Definition text_run (v : json) : json := dict1 "text" (dict1 "content" v).

Definition encodeValue (k : string) (v : json) : json :=
  if String.eqb (lower k) "tree" then dict1 "title" (JList [text_run v])
  else if String.eqb (lower k) "status" then dict1 "select" (dict1 "name" v)
  else dict1 "rich_text" (JList [text_run v]).

(** [for k, v in values.items(): properties[k] = ...] *)
Definition insert_row_properties (values : gmap string json)
  : gmap string json :=
  map_fold (λ k v properties, <[ k := encodeValue k v ]> properties) ∅ values.

(** ** Row decoding (get_rows, lines 153-165) *)

Definition unsupported : json := JStr "[unsupported type]".

(** The if/elif chain on [value["type"]] for one property. *)
Definition decode_value (value : json) : result json :=
  ty ← py_getitem value "type";
   if py_eq_str ty "title" then
     t ← py_getitem value "title";
     if truthy t then
       r ← py_getitem0 t; x ← py_getitem r "text"; py_getitem x "content"
     else Ok (JStr "")
   else
     ty ← py_getitem value "type";
     if py_eq_str ty "rich_text" then
       t ← py_getitem value "rich_text";
       if truthy t then
         r ← py_getitem0 t; x ← py_getitem r "text"; py_getitem x "content"
       else Ok (JStr "")
     else
       ty ← py_getitem value "type";
       if py_eq_str ty "select" then
         o ← py_getitem value "select";
         if truthy o then py_getitem o "name" else Ok (JStr "")
       else Ok unsupported.

(** [for key, value in props.items(): row[key] = ...]; the first property
    that raises ends the loop. *)
Definition decodeRow (props : gmap string json) : result (gmap string json) :=
  map_fold (λ key value acc,
              row ← acc; s ← decode_value value; Ok (<[ key := s ]> row))
           (Ok ∅) props.

(** Lines 153-165: one decoded row per element of [results]. *)
Fixpoint decode_results (results : list json) : result (list json) :=
  match results with
  | [] => Ok []
  | r :: rest =>
      props ← py_get_default r "properties" (JDict ∅);
       items ← py_items props;
       row ← decodeRow items;
       rows ← decode_results rest;
       Ok (JDict row :: rows)
  end.

(** ** Requests, responses and effects *)

(** The calls made on the [notion_client.Client], with their keyword
    arguments. *)
Inductive vendor_request :=
| DatabasesCreate (parent title properties : json)
| PagesCreate (parent properties : json)
| DatabasesUpdate (database_id properties : json)
| DatabasesQuery (database_id : json).

(** What a run leaves behind: [func()] entered by [safe_notion_call],
    [time.sleep], and the f-string lines printed (literal part and
    interpolated value). *)
Inductive event :=
| EvCall
| EvSleep (seconds : Z)
| EvPrint (text : string) (arg : json).

(** [jsonify(body), status] *)
Record response := Response { status : Z; body : json }.

(** The request body as Flask's JSON loader sees it. *)
Inductive request_body :=
| Malformed
| Parsed (j : json).

(** werkzeug's [BadRequest] with its default description, as Flask raises
    it outside debug mode (in debug mode the description is the
    parser's message). *)
Definition BadRequest : exn :=
  Exn "BadRequest"
      "400 Bad Request: The browser (or proxy) sent a request that this server could not understand.".

(** [request.get_json(force=True)]: the mimetype is ignored; [silent] keeps
    its default, so a body that does not parse (an empty one included) makes
    [on_json_loading_failed] raise [BadRequest]. *)
Definition get_json_force (b : request_body) : result json :=
  match b with
  | Parsed j => Ok j
  | Malformed => Raise BadRequest
  end.

Definition is_call (ev : event) : bool :=
  match ev with EvCall => true | _ => false end.

Definition is_sleep (ev : event) : bool :=
  match ev with EvSleep _ => true | _ => false end.

Definition calls (tr : list event) : nat := length (filter is_call tr).

Definition sleeps (tr : list event) : nat := length (filter is_sleep tr).

(** ** The service *)

Section Service.

(** The vendor behind [notion], with whatever state it keeps, and the
    module constant [PAGE_ID] read from the environment. *)
Context {VS : Type}.
Variable notion : vendor_request → VS → result json * VS.
Variable PAGE_ID : json.

Record world := World { vendor : VS; trace : list event }.

(** Handlers and helpers run in a state-and-exception monad. *)
Definition M (A : Type) : Type := world → result A * world.

#[local] Instance M_ret : MRet M := λ A a w, (Ok a, w).

#[local] Instance M_bind : MBind M := λ A B k m w,
  match m w with
  | (Ok a, w') => k a w'
  | (Raise e, w') => (Raise e, w')
  end.

Definition lift {A} (r : result A) : M A := λ w, (r, w).

(** [try: body except Exception as e: handler] *)
Definition try_except {A} (body : M A) (handler : exn → M A) : M A := λ w,
  match body w with
  | (Ok a, w') => (Ok a, w')
  | (Raise e, w') => handler e w'
  end.

Definition log (ev : event) (w : world) : world :=
  World (vendor w) (trace w ++ [ev]).

Definition print (text : string) (arg : json) : M () := λ w,
  (Ok (), log (EvPrint text arg) w).

(** [func()]: a zero-argument operation acts on the vendor only. *)
Definition invoke {V} (func : VS → result V * VS) : M V := λ w,
  let '(r, s) := func (vendor w) in (r, World s (trace w ++ [EvCall])).

(** [time.sleep(seconds)] refuses a negative length.  Lengths are taken
    inside the range the platform's sleep converts; beyond it the call
    raises [OverflowError] instead, which is not modelled. *)
Definition time_sleep (seconds : Z) : M () := λ w,
  if decide (seconds < 0)
  then (Raise (Exn "ValueError" "sleep length must be non-negative"), w)
  else (Ok (), log (EvSleep seconds) w).

(** Lines 19-27.  Each retry nests one more call; the interpreter's
    recursion limit, reached only with several hundred retries, is not
    modelled. *)
Equations? safe_notion_call {V} (func : VS → result V * VS)
    (retries delay : Z) (w : world) : result V * world
    by wf (Z.to_nat retries) lt :=
  safe_notion_call func retries delay w with invoke func w := {
    | (Ok v, w1) := (Ok v, w1);
    | (Raise e, w1) with decide (retries > 0) := {
        | left _ with time_sleep delay w1 := {
            | (Ok _, w2) := safe_notion_call func (retries - 1) delay w2;
            | (Raise e', w2) := (Raise e', w2) };
        | right _ := (Raise e, w1) } }.
Proof. lia. Qed.

(** The defaults [retries=1, delay=2] every call site relies on. *)
Definition safe_notion_call_default {V} (func : VS → result V * VS) : M V :=
  safe_notion_call func 1 2.

Definition missing (msg : string) : response :=
  Response 400 (dict1 "error" (JStr msg)).

Definition failed (e : exn) : response :=
  Response 500 (dict1 "error" (JStr (exn_str e))).

(** Lines 54-59. *)
Definition create_db (table_name : json) (properties : gmap string json)
  : VS → result json * VS :=
  notion (DatabasesCreate
            (dict2 "type" (JStr "page_id") "page_id" PAGE_ID)
            (JList [dict2 "type" (JStr "text")
                          "text" (dict1 "content" table_name)])
            (JDict properties)).

(** Lines 39-63, the [try] block. *)
Definition create_table_try (table_name fields : json) : M response :=
  items ← lift (py_items fields);
  let properties := create_table_properties items in
  db ← safe_notion_call_default (create_db table_name properties);
  id ← lift (py_getitem db "id");
  _ ← print "Database created: " id;
  id ← lift (py_getitem db "id");
  mret (Response 200 (dict2 "message" (JStr "OK") "database_id" id)).

(** Lines 65-67, the [except] block. *)
Definition create_table_except (e : exn) : M response :=
  _ ← print "Create error: " (JStr (exn_str e)); mret (failed e).

(** Lines 30-67. *)
Definition create_table (b : request_body) : M response :=
  data ← lift (get_json_force b);
  let data := py_or data (JDict ∅) in
  table_name ← lift (py_get data "table");
  fields ← lift (py_get data "fields");
  if negb (truthy table_name) || negb (truthy fields) then
    mret (missing "Missing table name or fields")
  else
    try_except (create_table_try table_name fields) create_table_except.

(** Lines 88-92. *)
Definition insert_page (db_id : json) (properties : gmap string json)
  : VS → result json * VS :=
  notion (PagesCreate (dict1 "database_id" db_id) (JDict properties)).

(** Lines 78-96, the [try] block. *)
Definition insert_row_try (db_id values : json) : M response :=
  items ← lift (py_items values);
  let properties := insert_row_properties items in
  page ← safe_notion_call_default (insert_page db_id properties);
  id ← lift (py_getitem page "id");
  _ ← print "Page created: " id;
  id ← lift (py_getitem page "id");
  mret (Response 200 (dict2 "message" (JStr "OK") "page_id" id)).

(** Lines 98-100, the [except] block. *)
Definition insert_row_except (e : exn) : M response :=
  _ ← print "Insert error: " (JStr (exn_str e)); mret (failed e).

(** Lines 69-100. *)
Definition insert_row (b : request_body) : M response :=
  data ← lift (get_json_force b);
  db_id ← lift (py_get data "database_id");
  values ← lift (py_get data "values");
  if negb (truthy db_id) || negb (truthy values) then
    mret (missing "Missing database_id or values")
  else
    try_except (insert_row_try db_id values) insert_row_except.

(** Lines 124-128. *)
Definition update_db (db_id : json) (properties : gmap string json)
  : VS → result json * VS :=
  notion (DatabasesUpdate db_id (JDict properties)).

(** Lines 111-132, the [try] block. *)
Definition update_table_try (db_id new_fields : json) : M response :=
  items ← lift (py_items new_fields);
  let properties := update_table_properties items in
  _ ← safe_notion_call_default (update_db db_id properties);
  _ ← print "Updated database: " db_id;
  mret (Response 200 (dict2 "message" (JStr "Updated") "database_id" db_id)).

(** Lines 134-136, the [except] block. *)
Definition update_table_except (e : exn) : M response :=
  _ ← print "Update error: " (JStr (exn_str e)); mret (failed e).

(** Lines 102-136. *)
Definition update_table (b : request_body) : M response :=
  data ← lift (get_json_force b);
  db_id ← lift (py_get data "database_id");
  new_fields ← lift (py_get data "fields");
  if negb (truthy db_id) || negb (truthy new_fields) then
    mret (missing "Missing database_id or fields")
  else
    try_except (update_table_try db_id new_fields) update_table_except.

(** Lines 147-148. *)
Definition query_db (db_id : json) : VS → result json * VS :=
  notion (DatabasesQuery db_id).

(** Lines 146-167, the [try] block. *)
Definition get_rows_try (db_id : json) : M response :=
  response ← safe_notion_call_default (query_db db_id);
  results ← lift (py_get_default response "results" (JList []));
  results ← lift (py_iter results);
  rows ← lift (decode_results results);
  mret (Response 200 (JList rows)).

(** Lines 169-171, the [except] block. *)
Definition get_rows_except (e : exn) : M response :=
  _ ← print "GET error: " (JStr (exn_str e)); mret (failed e).

(** Lines 138-171. *)
Definition get_rows (b : request_body) : M response :=
  data ← lift (get_json_force b);
  db_id ← lift (py_get data "database_id");
  if negb (truthy db_id) then
    mret (missing "Missing database_id")
  else
    try_except (get_rows_try db_id) get_rows_except.

(** Lines 173-175. *)
Definition health : M (string * Z) := mret ("OK", 200).

End Service.

Arguments World {VS} vendor trace.
Arguments vendor {VS} w.
Arguments trace {VS} w.

(** ** Vocabulary of the properties *)

(** Fields of title kind in a schema, and fields declared ["title"] in a
    request. *)
Definition title_fields (properties : gmap string json) : gmap string json :=
  filter (λ kv, has_key "title" kv.2 = true) properties.

Definition declared_title (fields : gmap string json) : gmap string json :=
  filter (λ kv, py_eq_str kv.2 "title" = true) fields.

(** The events of [n] further attempts after a failed one. *)
Definition retried (delay : Z) (n : nat) : list event :=
  concat (replicate n [EvSleep delay; EvCall]).

(** [c.upper()] on one character; only a-z change. *)
Definition upper_char (c : ascii) : ascii :=
  let n := nat_of_ascii c in
  if (97 <=? n)%nat && (n <=? 122)%nat then ascii_of_nat (n - 32) else c.

(** [any_case k word]: [k] spells [word] character by character, each
    letter of [word] standing as it is or in upper case. *)
Inductive any_case : string → string → Prop :=
| any_case_nil : any_case "" ""
| any_case_same c k word :
    any_case k word → any_case (String c k) (String c word)
| any_case_upper c k word :
    any_case k word → any_case (String (upper_char c) k) (String c word).

(** What one property decodes to, when it decodes. *)
Definition decoded (value : json) : option json :=
  match decode_value value with
  | Ok s => Some s
  | Raise _ => None
  end.

(** The first run's text content, or "" when there is no run. *)
Inductive run_text : list json → json → Prop :=
| run_text_none : run_text [] (JStr "")
| run_text_first (r t : gmap string json) (content : json) (rest : list json) :
    r !! "text" = Some (JDict t) →
    t !! "content" = Some content →
    run_text (JDict r :: rest) content.

(** Property values of the shapes the decoder reads, with the scalar each
    stands for. *)
Inductive decodes_to : json → json → Prop :=
| decodes_title (m : gmap string json) runs s :
    m !! "type" = Some (JStr "title") →
    m !! "title" = Some (JList runs) →
    run_text runs s →
    decodes_to (JDict m) s
| decodes_rich_text (m : gmap string json) runs s :
    m !! "type" = Some (JStr "rich_text") →
    m !! "rich_text" = Some (JList runs) →
    run_text runs s →
    decodes_to (JDict m) s
| decodes_select_unset (m : gmap string json) :
    m !! "type" = Some (JStr "select") →
    m !! "select" = Some JNull →
    decodes_to (JDict m) (JStr "")
| decodes_select (m o : gmap string json) name :
    m !! "type" = Some (JStr "select") →
    m !! "select" = Some (JDict o) →
    o !! "name" = Some name →
    decodes_to (JDict m) name
| decodes_other (m : gmap string json) ty :
    m !! "type" = Some ty →
    ty ≠ JStr "title" → ty ≠ JStr "rich_text" → ty ≠ JStr "select" →
    decodes_to (JDict m) (JStr "[unsupported type]").

(** [extends written stored]: [stored] is [written] with keys added.
    Scalars are kept as they are, lists are kept element by element, and
    an object keeps each of its keys, with more keys allowed beside
    them. *)
Inductive extends : json → json → Prop :=
| extends_same x : extends x x
| extends_list l l' :
    Forall2 extends l l' → extends (JList l) (JList l')
| extends_dict (m m' : gmap string json) :
    (∀ k v, m !! k = Some v → ∃ v', m' !! k = Some v' ∧ extends v v') →
    extends (JDict m) (JDict m').

(** How the vendor hands back a property value it was sent: [type]
    names the kind written, and under that kind stands the payload as
    written or extended (runs gain [type], [plain_text], [annotations],
    options gain [id] and [color]); other keys, such as [id], may stand
    beside the two. *)
Definition stored_as (written stored : json) : Prop :=
  ∃ (kind : string) (payload : json) (m : gmap string json) (payload' : json),
    written = dict1 kind payload
    ∧ stored = JDict m
    ∧ m !! "type" = Some (JStr kind)
    ∧ m !! kind = Some payload'
    ∧ extends payload payload'.

(** The vendor's form with nothing but the two keys. *)
Definition tagged (kind : string) (payload : json) : json :=
  dict2 "type" (JStr kind) kind payload.

(** The least the vendor stores for a written value [{kind: payload}]. *)
Definition store_tagged (written : json) : json :=
  match written with
  | JDict m =>
      match map_to_list m with
      | [(kind, payload)] => tagged kind payload
      | _ => written
      end
  | _ => written
  end.

(** ** Sample vendors and requests *)

(** A vendor that fails its first [n] calls with [ConnectionError] and then
    answers with a database object; its state counts the calls received. *)
Definition flaky (n : nat) (req : vendor_request) (seen : nat)
  : result json * nat :=
  if (seen <? n)%nat
  then (Raise (Exn "ConnectionError" ("attempt " +:+ pretty seen)), S seen)
  else (Ok (dict2 "object" (JStr "database") "id" (JStr "db-1")), S seen).

(** A vendor that fails its first [n] calls and then answers [reply]. *)
Definition flaky_reply (n : nat) (reply : json) (req : vendor_request)
    (seen : nat) : result json * nat :=
  if (seen <? n)%nat
  then (Raise (Exn "ConnectionError" ("attempt " +:+ pretty seen)), S seen)
  else (Ok reply, S seen).

(** A vendor that also keeps, in call order, every request it receives. *)
Definition recording {VS} (notion : vendor_request → VS → result json * VS)
    (req : vendor_request) (s : VS * list vendor_request)
  : result json * (VS * list vendor_request) :=
  let '(r, s') := notion req s.1 in (r, (s', s.2 ++ [req])).

(** The requests a recording vendor has received so far. *)
Definition sent {VS} (w : @world (VS * list vendor_request))
  : list vendor_request := (vendor w).2.

(** A vendor that answers every request with the same object. *)
Definition answering (reply : json) (req : vendor_request) (s : unit)
  : result json * unit := (Ok reply, s).

(** A request that passes validation: one declared rich-text field. *)
Definition sample_create : gmap string json :=
  <[ "fields" := JDict {[ "Notes" := JStr "rich_text" ]} ]>
    {[ "table" := JStr "Trees" ]}.

Definition sample_fields : gmap string json :=
  <[ "Status" := JStr "select" ]> {[ "Notes" := JStr "rich_text" ]}.

Definition sample_valid : gmap string json :=
  <[ "fields" := JDict sample_fields ]> {[ "table" := JStr "Trees" ]}.

(** A title property with no run, a select property with no option, and a
    property of a kind the decoder does not read. *)
Definition sample_props : gmap string json :=
  <[ "Done" := dict2 "type" (JStr "checkbox") "checkbox" (JBool true) ]>
    (<[ "Status" := dict2 "type" (JStr "select") "select" JNull ]>
       {[ "Tree" := dict2 "type" (JStr "title") "title" (JList []) ]}).

Definition sample_row : gmap string json :=
  <[ "Done" := JStr "[unsupported type]" ]>
    (<[ "Status" := JStr "" ]> {[ "Tree" := JStr "" ]}).

(** A title whose first run is a user mention: the vendor gives such a run
    [mention] and [plain_text], and no [text]. *)
Definition mention_title : json :=
  dict2 "type" (JStr "title")
        "title" (JList [JDict (<[ "plain_text" := JStr "@Ann" ]>
                                 (<[ "mention" := dict1 "type" (JStr "user") ]>
                                    {[ "type" := JStr "mention" ]}))]).

(** A title property as the vendor returns it for the written text
    "Oak". *)
Definition stored_title_Oak : json :=
  JDict (<[ "id" := JStr "title" ]>
           (<[ "title" :=
                 JList [JDict (<[ "href" := JNull ]>
                                 (<[ "plain_text" := JStr "Oak" ]>
                                    (<[ "annotations" :=
                                          dict2 "bold" (JBool false)
                                                "color" (JStr "default") ]>
                                       (<[ "text" := dict2 "content" (JStr "Oak")
                                                           "link" JNull ]>
                                          {[ "type" := JStr "text" ]}))))] ]>
              {[ "type" := JStr "title" ]})).

(** A select property as the vendor returns it for the written option
    "Done". *)
Definition stored_select_Done : json :=
  JDict (<[ "id" := JStr "%3AUPp" ]>
           (<[ "select" := JDict (<[ "color" := JStr "green" ]>
                                    (<[ "name" := JStr "Done" ]>
                                       {[ "id" := JStr "1f2c" ]})) ]>
              {[ "type" := JStr "select" ]})).

(** ** Further samples *)

(** A record with a title value and a plain one. *)
Definition sample_insert : gmap string json :=
  <[ "values" := JDict (<[ "Tree" := JStr "Oak" ]> {[ "Notes" := JStr "x" ]}) ]>
    {[ "database_id" := JStr "db-1" ]}.


(** A query reply whose second result has a title that opens with a
    mention. *)
Definition sample_bad_reply : gmap string json :=
  {[ "results" := JList [dict1 "properties" (JDict sample_props);
                         dict1 "properties"
                               (JDict {[ "Tree" := mention_title ]})] ]}.

(** ** Vocabulary of the further properties *)

(** The retry properties below are stated where the interpreter imposes
    nothing of its own: at most [nesting_range] nested retries, far
    inside the default recursion limit of 1000 frames, and sleep lengths
    of at most [sleep_range] seconds (a day) in magnitude, which every
    platform's [time.sleep] converts. *)
Definition nesting_range : Z := 100.

Definition sleep_range : Z := 86400.

(** [fails func s es s']: called again and again from the vendor state
    [s], [func] raises the exceptions [es] in turn and leaves the vendor
    in [s']. *)
Inductive fails {VS V} (func : VS → result V * VS)
  : VS → list exn → VS → Prop :=
| fails_nil s : fails func s [] s
| fails_cons s e s1 es s' :
    func s = (Raise e, s1) →
    fails func s1 es s' →
    fails func s (e :: es) s'.

(** [within_budget w w']: from [w] to [w'] the operation was entered at
    most twice and [time.sleep] ran at most once. *)
Definition within_budget {VS} (w w' : @world VS) : Prop :=
  ∃ added,
    trace w' = trace w ++ added
    ∧ (calls added ≤ 2)%nat
    ∧ (sleeps added ≤ 1)%nat.

(** The three statuses the handlers put on a response. *)
Definition answered (r : result response) : Prop :=
  ∃ resp, r = Ok resp
          ∧ (status resp = 200 ∨ status resp = 400 ∨ status resp = 500).


(** * Properties *)

(** ** Worked examples *)

Example create_field_title : create_field (JStr "title") = title_fragment.
Proof. reflexivity. Qed.

Example create_props_two :
  create_table_properties {[ "Notes" := JStr "rich_text" ]}
  = <[ "Name" := title_fragment ]> {[ "Notes" := rich_text_fragment ]}.
Proof. vm_compute. reflexivity. Qed.

Example encode_Tree :
  encodeValue "Tree" (JStr "Oak") = dict1 "title" (JList [text_run (JStr "Oak")]).
Proof. reflexivity. Qed.

Example decode_empty_title :
  decode_value (dict2 "type" (JStr "title") "title" (JList [])) = Ok (JStr "").
Proof. reflexivity. Qed.

Example retry_then_ok :
  safe_notion_call (flaky 1 (DatabasesQuery JNull)) 1 2 (World 0%nat [])
  = (Ok (dict2 "object" (JStr "database") "id" (JStr "db-1")),
     World 2%nat [EvCall; EvSleep 2; EvCall]).
Proof. reflexivity. Qed.

(** ** The field loops as maps *)

Lemma assign_fields_fmap (field : json → json) (fields : gmap string json) :
  assign_fields field fields = field <$> fields.
Proof.
  unfold assign_fields.
  apply (map_fold_weak_ind (λ r m, r = field <$> m)).
  - by rewrite fmap_empty.
  - intros name ftype m r _ ->. by rewrite fmap_insert.
Qed.

Lemma insert_row_properties_lookup (values : gmap string json) (k : string) :
  insert_row_properties values !! k = encodeValue k <$> values !! k.
Proof.
  unfold insert_row_properties.
  apply (map_fold_weak_ind
           (λ r m, r !! k = encodeValue k <$> (m : gmap string json) !! k)).
  - by rewrite !lookup_empty.
  - intros i x m r _ IH. destruct (decide (i = k)) as [->|Hne].
    + by rewrite !lookup_insert_eq.
    + by rewrite !lookup_insert_ne.
Qed.

Lemma has_key_create_field (ftype : json) :
  has_key "title" (create_field ftype) = py_eq_str ftype "title".
Proof.
  unfold create_field.
  destruct (py_eq_str ftype "title"); [reflexivity|].
  destruct (py_eq_str ftype "rich_text"); [reflexivity|].
  destruct (py_eq_str ftype "select"); reflexivity.
Qed.

Lemma any_title_true (properties : gmap string json) :
  any_title properties = true
  ↔ ∃ k v, properties !! k = Some v ∧ has_key "title" v = true.
Proof.
  unfold any_title. rewrite existsb_exists. split.
  - intros (v & Hin & Hv). apply list_elem_of_In, list_elem_of_fmap in Hin.
    destruct Hin as ([k v'] & -> & Hkv). apply elem_of_map_to_list in Hkv.
    by exists k, v'.
  - intros (k & v & Hk & Hv). exists v. split; [|done].
    apply list_elem_of_In, list_elem_of_fmap. exists (k, v). split; [done|].
    by apply elem_of_map_to_list.
Qed.

Lemma py_eq_str_true (x : json) (s : string) :
  py_eq_str x s = true ↔ x = JStr s.
Proof.
  destruct x; simpl; try (split; [discriminate|congruence]).
  rewrite String.eqb_eq. split; congruence.
Qed.

Lemma title_fields_create (fields : gmap string json) :
  title_fields (create_field <$> fields) = create_field <$> declared_title fields.
Proof.
  unfold title_fields, declared_title. rewrite map_filter_fmap. f_equal.
  apply map_filter_ext. intros i x _. simpl. by rewrite has_key_create_field.
Qed.

Lemma declared_title_empty (fields : gmap string json) :
  declared_title fields = ∅
  ↔ ∀ name ftype, fields !! name = Some ftype → ftype ≠ JStr "title".
Proof.
  unfold declared_title. rewrite map_empty_filter. unfold map_Forall. simpl.
  split; intros H name ftype Hl; specialize (H name ftype Hl);
    by rewrite py_eq_str_true in *.
Qed.

Lemma any_title_create (fields : gmap string json) :
  any_title (create_field <$> fields) = true ↔ declared_title fields ≠ ∅.
Proof.
  rewrite any_title_true. split.
  - intros (k & v & Hk & Hv) Hempty.
    assert (title_fields (create_field <$> fields) !! k = Some v) as Hin
      by (by apply map_lookup_filter_Some_2).
    by rewrite title_fields_create, Hempty, fmap_empty, lookup_empty in Hin.
  - intros Hne. apply map_choose in Hne as (k & t & Hk).
    apply map_lookup_filter_Some in Hk as [Hk Ht]. simpl in Ht.
    exists k, (create_field t). split.
    + by rewrite lookup_fmap, Hk.
    + by rewrite has_key_create_field.
Qed.

Lemma create_table_properties_none (fields : gmap string json) :
  declared_title fields = ∅ →
  create_table_properties fields
  = <[ "Name" := title_fragment ]> (create_field <$> fields).
Proof.
  intros Hnone. unfold create_table_properties.
  rewrite assign_fields_fmap.
  destruct (any_title (create_field <$> fields)) eqn:Hany; [|done].
  by apply any_title_create in Hany.
Qed.

Lemma create_table_properties_some (fields : gmap string json) :
  declared_title fields ≠ ∅ →
  create_table_properties fields = create_field <$> fields.
Proof.
  intros Hsome. unfold create_table_properties.
  rewrite assign_fields_fmap.
  apply any_title_create in Hsome. by rewrite Hsome.
Qed.

Lemma title_fields_synthesized (fields : gmap string json) :
  declared_title fields = ∅ →
  title_fields (create_table_properties fields) = {[ "Name" := title_fragment ]}.
Proof.
  intros Hnone. rewrite create_table_properties_none by done.
  unfold title_fields at 1. rewrite map_filter_insert_True by done.
  fold (title_fields (create_field <$> fields)).
  by rewrite title_fields_create, Hnone, fmap_empty.
Qed.

Lemma title_count (fields : gmap string json) :
  size (title_fields (create_table_properties fields))
  = (1 `max` size (declared_title fields))%nat.
Proof.
  destruct (decide (declared_title fields = ∅)) as [Hnone|Hsome].
  - rewrite title_fields_synthesized by done.
    by rewrite Hnone, map_size_singleton, map_size_empty.
  - rewrite create_table_properties_some, title_fields_create by done.
    rewrite map_size_fmap.
    apply map_size_non_empty_iff in Hsome. lia.
Qed.

(** ** The retry helper *)

Lemma safe_notion_call_eq {VS V} (func : VS → result V * VS)
    (retries delay : Z) (w : world) :
  safe_notion_call func retries delay w
  = match invoke func w with
    | (Ok v, w1) => (Ok v, w1)
    | (Raise e, w1) =>
        if decide (retries > 0)
        then match time_sleep delay w1 with
             | (Ok _, w2) => safe_notion_call func (retries - 1) delay w2
             | (Raise e', w2) => (Raise e', w2)
             end
        else (Raise e, w1)
    end.
Proof.
  simp safe_notion_call.
  destruct (invoke func w) as [[v|e] w1]; simpl; [done|].
  destruct (decide (retries > 0)); simpl; [|done].
  destruct (time_sleep delay w1) as [[[]|e'] w2]; simpl; done.
Qed.

Lemma time_sleep_eq {VS} (delay : Z) (w : @world VS) :
  0 ≤ delay → time_sleep delay w = (Ok (), log (EvSleep delay) w).
Proof. intros H. unfold time_sleep. destruct (decide (delay < 0)); [lia|done]. Qed.

Lemma invoke_eq {VS V} (func : VS → result V * VS) (w : world) r s :
  func (vendor w) = (r, s) →
  invoke func w = (r, World s (trace w ++ [EvCall])).
Proof. intros H. unfold invoke. by rewrite H. Qed.

(** A run is one attempt followed by at most [retries] sleep-and-attempt
    rounds, all on the same operation. *)
Lemma safe_notion_call_trace {VS V} (func : VS → result V * VS)
    (retries delay : Z) (w : @world VS) :
  ∃ n : nat,
    Z.of_nat n ≤ Z.max 0 retries
    ∧ trace (safe_notion_call func retries delay w).2
      = trace w ++ EvCall :: retried delay n.
Proof.
  remember (Z.to_nat retries) as fuel eqn:Hfuel.
  revert retries w Hfuel.
  induction fuel as [|fuel IH]; intros retries w Hfuel;
    rewrite safe_notion_call_eq;
    destruct (func (vendor w)) as [r s] eqn:Hf;
    rewrite (invoke_eq _ _ _ _ Hf);
    (destruct r as [v|e]; [exists 0%nat; simpl; split; [lia|done]|]);
    (destruct (decide (retries > 0)) as [Hpos|Hneg];
       [|exists 0%nat; simpl; split; [lia|done]]);
    unfold time_sleep;
    (destruct (decide (delay < 0)) as [Hdelay|Hdelay];
       [exists 0%nat; simpl; split; [lia|done]|]).
  - lia.
  - destruct (IH (retries - 1) (log (EvSleep delay) (World s (trace w ++ [EvCall]))))
      as (n & Hn & Htr); [lia|].
    exists (S n). split; [lia|].
    rewrite Htr. simpl. by rewrite <- !app_assoc.
Qed.

Lemma calls_app (l1 l2 : list event) :
  calls (l1 ++ l2) = (calls l1 + calls l2)%nat.
Proof. unfold calls. by rewrite filter_app, length_app. Qed.

Lemma sleeps_app (l1 l2 : list event) :
  sleeps (l1 ++ l2) = (sleeps l1 + sleeps l2)%nat.
Proof. unfold sleeps. by rewrite filter_app, length_app. Qed.

Lemma retried_S (delay : Z) (n : nat) :
  retried delay (S n) = [EvSleep delay; EvCall] ++ retried delay n.
Proof. reflexivity. Qed.

Lemma calls_retried (delay : Z) (n : nat) : calls (retried delay n) = n.
Proof.
  induction n as [|n IH]; [done|].
  rewrite retried_S, calls_app, IH. reflexivity.
Qed.

Lemma sleeps_retried (delay : Z) (n : nat) : sleeps (retried delay n) = n.
Proof.
  induction n as [|n IH]; [done|].
  rewrite retried_S, sleeps_app, IH. reflexivity.
Qed.

Example retried_once : retried 2 1 = [EvSleep 2; EvCall].
Proof. reflexivity. Qed.

(** ** The create-collection handler *)

Section CreateTable.

Context {VS : Type}.
Variable notion : vendor_request → VS → result json * VS.
Variable PAGE_ID : json.

Lemma create_table_missing (j : json) (data : gmap string json) (w : world) :
  py_or j (JDict ∅) = JDict data →
  truthy (default JNull (data !! "table")) = false
  ∨ truthy (default JNull (data !! "fields")) = false →
  create_table notion PAGE_ID (Parsed j) w
  = (Ok (missing "Missing table name or fields"), w).
Proof.
  intros Hdata Hfalsy. unfold create_table, mbind, M_bind, lift. simpl.
  rewrite Hdata. simpl.
  destruct Hfalsy as [-> | ->]; simpl; [done|].
  by rewrite orb_true_r.
Qed.

Lemma create_table_valid (data : gmap string json) (table_name fields : json)
    (w : world) :
  data !! "table" = Some table_name → truthy table_name = true →
  data !! "fields" = Some fields → truthy fields = true →
  create_table notion PAGE_ID (Parsed (JDict data)) w
  = try_except (create_table_try notion PAGE_ID table_name fields)
               create_table_except w.
Proof.
  intros Htable Htn Hfields Hf.
  assert (py_or (JDict data) (JDict ∅) = JDict data) as Hor.
  { unfold py_or. simpl. rewrite bool_decide_eq_false_2; [done|].
    intros ->. by rewrite lookup_empty in Htable. }
  unfold create_table, mbind, M_bind, lift. simpl.
  rewrite Hor. simpl. rewrite Htable, Hfields. simpl.
  by rewrite Htn, Hf.
Qed.

(** The [try] block once the wrapped call has returned or raised. *)
Lemma create_table_try_eq (table_name : json) (fields : gmap string json)
    (w : world) :
  create_table_try notion PAGE_ID table_name (JDict fields) w
  = match safe_notion_call_default
            (create_db notion PAGE_ID table_name
                       (create_table_properties fields)) w with
    | (Ok db, w1) =>
        match py_getitem db "id" with
        | Ok id =>
            (Ok (Response 200 (dict2 "message" (JStr "OK") "database_id" id)),
             log (EvPrint "Database created: " id) w1)
        | Raise e => (Raise e, w1)
        end
    | (Raise e, w1) => (Raise e, w1)
    end.
Proof.
  unfold create_table_try, mbind, M_bind, lift, print, mret, M_ret. simpl.
  destruct (safe_notion_call_default _ w) as [[db|e] w1]; [|done].
  destruct (py_getitem db "id") as [id|e]; done.
Qed.

End CreateTable.

(** ** Retry: termination, bounds and propagation *)

Lemma safe_notion_call_twice {VS V} (func : VS → result V * VS) (w : world)
    (e1 : exn) (s1 : VS) (r2 : result V) (s2 : VS) :
  func (vendor w) = (Raise e1, s1) →
  func s1 = (r2, s2) →
  safe_notion_call_default func w
  = (r2, World s2 (trace w ++ [EvCall; EvSleep 2; EvCall])).
Proof.
  intros H1 H2. unfold safe_notion_call_default.
  rewrite safe_notion_call_eq, (invoke_eq _ _ _ _ H1).
  destruct (decide (1 > 0)) as [_|]; [|lia].
  rewrite time_sleep_eq by lia.
  rewrite safe_notion_call_eq, (invoke_eq func (log _ _) r2 s2) by done.
  unfold log. simpl. rewrite <- !app_assoc. simpl.
  destruct r2 as [v|e2]; [done|].
  destruct (decide (1 - 1 > 0)); [lia|done].
Qed.

(** C10. [safe_notion_call] returns for every [retries >= 0]: a failed
    attempt with [retries > 0] sleeps and continues as the call with
    [retries - 1], which is smaller in the measure of the recursion; over
    the whole run the operation is invoked at least once and at most
    [retries + 1] times, and [time.sleep] runs once before each invocation
    but the first, so at most [retries] times. *)
Theorem safe_notion_call_bounded {VS V} (func : VS → result V * VS)
    (retries delay : Z) (w : world) :
  0 ≤ retries →
  (∀ e w1, invoke func w = (Raise e, w1) → 0 < retries → 0 ≤ delay →
     safe_notion_call func retries delay w
     = safe_notion_call func (retries - 1) delay (log (EvSleep delay) w1)
     ∧ (Z.to_nat (retries - 1) < Z.to_nat retries)%nat)
  ∧ ∃ r w' added,
      safe_notion_call func retries delay w = (r, w')
      ∧ trace w' = trace w ++ added
      ∧ 1 ≤ Z.of_nat (calls added) ≤ retries + 1
      ∧ Z.of_nat (sleeps added) ≤ retries
      ∧ calls added = S (sleeps added).
Proof.
  intros Hretries. split.
  - intros e w1 Hinv Hpos Hdelay. split; [|lia].
    rewrite safe_notion_call_eq, Hinv.
    destruct (decide (retries > 0)); [|lia].
    by rewrite time_sleep_eq.
  - destruct (safe_notion_call_trace func retries delay w) as (n & Hn & Htr).
    destruct (safe_notion_call func retries delay w) as [r w'] eqn:Hrun.
    exists r, w', (EvCall :: retried delay n). simpl in Htr.
    split; [done|]. split; [done|].
    change (EvCall :: retried delay n) with ([EvCall] ++ retried delay n).
    rewrite calls_app, sleeps_app, calls_retried, sleeps_retried.
    change (calls [EvCall]) with 1%nat. change (sleeps [EvCall]) with 0%nat.
    lia.
Qed.

Lemma safe_notion_call_bounded_witness :
  ∃ r w' added,
    safe_notion_call (flaky 5 (DatabasesQuery JNull)) 3 2 (World 0%nat [])
    = (r, w')
    ∧ trace w' = [] ++ added
    ∧ 1 ≤ Z.of_nat (calls added) ≤ 3 + 1
    ∧ Z.of_nat (sleeps added) ≤ 3
    ∧ calls added = S (sleeps added).
Proof.
  apply (safe_notion_call_bounded
           (flaky 5 (DatabasesQuery JNull)) 3 2 (World 0%nat [])).
  lia.
Defined.

(** C1, as the code has it.  With the default [retries=1], an operation
    whose first call fails is called once more after one
    [time.sleep(2)]; what the second call raises is what
    [safe_notion_call] raises, and what it returns is what
    [safe_notion_call] returns.  In [create_table] the second failure
    becomes the 500 response carrying [str] of that failure.  A retry
    that succeeds becomes the 200 response when the reply gives an [id],
    which the response carries; the [id] is read inside the [try] block,
    so a reply that gives none becomes a 500 response carrying the
    lookup error. *)
Theorem retry_once_then_propagate {VS : Type} :
  (∀ V (func : VS → result V * VS) (w : world) e1 s1,
     func (vendor w) = (Raise e1, s1) →
     (∀ e2 s2, func s1 = (Raise e2, s2) →
        safe_notion_call func 1 2 w
        = (Raise e2, World s2 (trace w ++ [EvCall; EvSleep 2; EvCall])))
     ∧ (∀ v s2, func s1 = (Ok v, s2) →
        safe_notion_call func 1 2 w
        = (Ok v, World s2 (trace w ++ [EvCall; EvSleep 2; EvCall]))))
  ∧ (∀ (notion : vendor_request → VS → result json * VS) PAGE_ID
       (data fields : gmap string json) table_name (w : world) e1 s1,
       data !! "table" = Some table_name → truthy table_name = true →
       data !! "fields" = Some (JDict fields) → fields ≠ ∅ →
       let func :=
         create_db notion PAGE_ID table_name (create_table_properties fields) in
       func (vendor w) = (Raise e1, s1) →
       (∀ e2 s2, func s1 = (Raise e2, s2) →
          create_table notion PAGE_ID (Parsed (JDict data)) w
          = (Ok (Response 500 (dict1 "error" (JStr (exn_str e2)))),
             World s2 (trace w ++ [EvCall; EvSleep 2; EvCall;
                                   EvPrint "Create error: " (JStr (exn_str e2))])))
       ∧ (∀ db id s2, func s1 = (Ok db, s2) → py_getitem db "id" = Ok id →
          create_table notion PAGE_ID (Parsed (JDict data)) w
          = (Ok (Response 200 (dict2 "message" (JStr "OK") "database_id" id)),
             World s2 (trace w ++ [EvCall; EvSleep 2; EvCall;
                                   EvPrint "Database created: " id])))
       ∧ (∀ db e s2, func s1 = (Ok db, s2) → py_getitem db "id" = Raise e →
          create_table notion PAGE_ID (Parsed (JDict data)) w
          = (Ok (Response 500 (dict1 "error" (JStr (exn_str e)))),
             World s2 (trace w ++ [EvCall; EvSleep 2; EvCall;
                                   EvPrint "Create error: " (JStr (exn_str e))])))).
Proof.
  split.
  - intros V func w e1 s1 H1. split; intros r2 s2 H2;
      apply (safe_notion_call_twice func w e1 s1 _ s2 H1 H2).
  - intros notion PAGE_ID data fields table_name w e1 s1
      Htable Htn Hfields Hne func H1. subst func.
    assert (truthy (JDict fields) = true) as Hf
      by (simpl; by rewrite bool_decide_eq_false_2).
    split; [|split].
    + intros e2 s2 H2.
      rewrite (create_table_valid _ _ _ _ _ _ Htable Htn Hfields Hf).
      unfold try_except. rewrite create_table_try_eq.
      rewrite (safe_notion_call_twice _ w e1 s1 _ s2 H1 H2).
      unfold create_table_except, mbind, M_bind, print, log, failed. simpl.
      by rewrite <- !app_assoc.
    + intros db id s2 H2 Hid.
      rewrite (create_table_valid _ _ _ _ _ _ Htable Htn Hfields Hf).
      unfold try_except. rewrite create_table_try_eq.
      rewrite (safe_notion_call_twice _ w e1 s1 _ s2 H1 H2), Hid.
      unfold log. simpl. by rewrite <- !app_assoc.
    + intros db e s2 H2 Hid.
      rewrite (create_table_valid _ _ _ _ _ _ Htable Htn Hfields Hf).
      unfold try_except. rewrite create_table_try_eq.
      rewrite (safe_notion_call_twice _ w e1 s1 _ s2 H1 H2), Hid.
      unfold create_table_except, mbind, M_bind, print, log, failed. simpl.
      by rewrite <- !app_assoc.
Qed.

Lemma retry_once_then_propagate_witness :
  safe_notion_call (flaky 2 (DatabasesQuery JNull)) 1 2 (World 0%nat [])
  = (Raise (Exn "ConnectionError" "attempt 1"),
     World 2%nat [EvCall; EvSleep 2; EvCall])
  ∧ create_table (flaky 2) (JStr "page-1") (Parsed (JDict sample_create))
                 (World 0%nat [])
    = (Ok (Response 500 (dict1 "error" (JStr "attempt 1"))),
       World 2%nat [EvCall; EvSleep 2; EvCall;
                    EvPrint "Create error: " (JStr "attempt 1")])
  ∧ create_table (flaky 1) (JStr "page-1") (Parsed (JDict sample_create))
                 (World 0%nat [])
    = (Ok (Response 200 (dict2 "message" (JStr "OK")
                               "database_id" (JStr "db-1"))),
       World 2%nat [EvCall; EvSleep 2; EvCall;
                    EvPrint "Database created: " (JStr "db-1")]).
Proof.
  split; [|split].
  - apply (proj1 (proj1 retry_once_then_propagate json
                   (flaky 2 (DatabasesQuery JNull)) (World 0%nat [])
                   (Exn "ConnectionError" "attempt 0") 1%nat eq_refl)
             (Exn "ConnectionError" "attempt 1") 2%nat eq_refl).
  - apply (proj1 (proj2 retry_once_then_propagate (flaky 2) (JStr "page-1")
                   sample_create {[ "Notes" := JStr "rich_text" ]}
                   (JStr "Trees") (World 0%nat [])
                   (Exn "ConnectionError" "attempt 0") 1%nat
                   eq_refl eq_refl eq_refl (map_non_empty_singleton _ _)
                   eq_refl)
             (Exn "ConnectionError" "attempt 1") 2%nat eq_refl).
  - apply (proj1 (proj2 (proj2 retry_once_then_propagate (flaky 1)
                   (JStr "page-1")
                   sample_create {[ "Notes" := JStr "rich_text" ]}
                   (JStr "Trees") (World 0%nat [])
                   (Exn "ConnectionError" "attempt 0") 1%nat
                   eq_refl eq_refl eq_refl (map_non_empty_singleton _ _)
                   eq_refl))
             (dict2 "object" (JStr "database") "id" (JStr "db-1"))
             (JStr "db-1") 2%nat eq_refl eq_refl).
Defined.

(** C1 as stated fails: the vendor call fails once and succeeds on the
    retry, with a reply that holds no [id]; the handler answers 500, not
    200. *)
Lemma retry_success_without_id_is_500 :
  let notion := flaky_reply 1 (dict1 "object" (JStr "database")) in
  let run := create_table notion (JStr "page-1") (Parsed (JDict sample_create))
                          (World 0%nat []) in
  safe_notion_call
    (create_db notion (JStr "page-1") (JStr "Trees")
               (create_table_properties {[ "Notes" := JStr "rich_text" ]}))
    1 2 (World 0%nat [])
  = (Ok (dict1 "object" (JStr "database")),
     World 2%nat [EvCall; EvSleep 2; EvCall])
  ∧ run = (Ok (Response 500 (dict1 "error" (JStr "'id'"))),
           World 2%nat [EvCall; EvSleep 2; EvCall;
                        EvPrint "Create error: " (JStr "'id'")])
  ∧ ¬ (∃ resp, run.1 = Ok resp ∧ status resp = 200).
Proof.
  cbv zeta. split; [|split].
  - vm_compute. reflexivity.
  - vm_compute. reflexivity.
  - intros (resp & Hrun & Hstatus). vm_compute in Hrun.
    injection Hrun as <-. discriminate Hstatus.
Qed.

(** ** Validation and request bodies *)

Lemma falsy_lookup (data : gmap string json) (k : string) :
  (∀ v, data !! k = Some v → truthy v = false) →
  truthy (default JNull (data !! k)) = false.
Proof. intros H. destruct (data !! k) as [v|]; simpl; [by apply H|done]. Qed.

Lemma py_or_falsy (j : json) : truthy j = false → py_or j (JDict ∅) = JDict ∅.
Proof. intros H. unfold py_or. by rewrite H. Qed.

(** C7. A create-collection body (an object, or a falsy value taken as
    the empty object) whose [table] is missing or falsy, or whose
    [fields] is missing or falsy, is answered with 400 and the message
    "Missing table name or fields"; the world is left as it was: the
    vendor is not called, nothing sleeps, nothing is printed. *)
Theorem create_table_missing_no_vendor_call {VS : Type}
    (notion : vendor_request → VS → result json * VS) (PAGE_ID j : json)
    (data : gmap string json) (w : world) :
  py_or j (JDict ∅) = JDict data →
  (∀ v, data !! "table" = Some v → truthy v = false)
  ∨ (∀ v, data !! "fields" = Some v → truthy v = false) →
  create_table notion PAGE_ID (Parsed j) w
  = (Ok (Response 400 (dict1 "error" (JStr "Missing table name or fields"))),
     w).
Proof.
  intros Hdata Hmissing.
  apply (create_table_missing notion PAGE_ID j data w Hdata).
  destruct Hmissing as [H|H]; [left|right]; by apply falsy_lookup.
Qed.

Lemma create_table_missing_no_vendor_call_witness :
  create_table (recording (flaky 0)) (JStr "page-1")
               (Parsed (JDict {[ "table" := JStr "Trees" ]}))
               (World (0%nat, []) [])
  = (Ok (Response 400 (dict1 "error" (JStr "Missing table name or fields"))),
     World (0%nat, []) []).
Proof.
  apply (create_table_missing_no_vendor_call (recording (flaky 0))
           (JStr "page-1") (JDict {[ "table" := JStr "Trees" ]})
           {[ "table" := JStr "Trees" ]} (World (0%nat, []) [])).
  - vm_compute. reflexivity.
  - right. intros v Hv. vm_compute in Hv. discriminate Hv.
Defined.

Section Bodies.

Context {VS : Type}.
Variable notion : vendor_request → VS → result json * VS.
Variable PAGE_ID : json.

Lemma insert_row_missing (data : gmap string json) (w : world) :
  (∀ v, data !! "database_id" = Some v → truthy v = false)
  ∨ (∀ v, data !! "values" = Some v → truthy v = false) →
  insert_row notion (Parsed (JDict data)) w
  = (Ok (missing "Missing database_id or values"), w).
Proof.
  intros Hmissing. unfold insert_row, mbind, M_bind, lift. simpl.
  destruct Hmissing as [H|H]; apply falsy_lookup in H; rewrite H; simpl;
    [done|by rewrite orb_true_r].
Qed.

Lemma update_table_missing (data : gmap string json) (w : world) :
  (∀ v, data !! "database_id" = Some v → truthy v = false)
  ∨ (∀ v, data !! "fields" = Some v → truthy v = false) →
  update_table notion (Parsed (JDict data)) w
  = (Ok (missing "Missing database_id or fields"), w).
Proof.
  intros Hmissing. unfold update_table, mbind, M_bind, lift. simpl.
  destruct Hmissing as [H|H]; apply falsy_lookup in H; rewrite H; simpl;
    [done|by rewrite orb_true_r].
Qed.

Lemma get_rows_missing (data : gmap string json) (w : world) :
  (∀ v, data !! "database_id" = Some v → truthy v = false) →
  get_rows notion (Parsed (JDict data)) w
  = (Ok (missing "Missing database_id"), w).
Proof.
  intros H. unfold get_rows, mbind, M_bind, lift. simpl.
  apply falsy_lookup in H. by rewrite H.
Qed.

End Bodies.

(** [insert_row], [update_table] and [get_rows] call [.get] on whatever
    [get_json] returned: a body that is valid JSON but not an object raises
    [AttributeError] before the [try] block is entered. *)
Example insert_row_null_body :
  insert_row (flaky 0) (Parsed JNull) (World 0%nat [])
  = (Raise (Exn "AttributeError" "'NoneType' object has no attribute 'get'"),
     World 0%nat []).
Proof. reflexivity. Qed.

(** C9, as the code has it.  [create_table] takes a body that parses to a
    falsy value (null, {}, [], "", 0, false) as the empty object and
    answers its 400; every handler answers its own 400 to an object
    without one of its required keys; a body that does not parse is
    refused by [get_json] itself, which raises [BadRequest] in every
    handler before any key is looked at. *)
Theorem request_body_tolerance {VS : Type}
    (notion : vendor_request → VS → result json * VS) (PAGE_ID : json)
    (w : world) :
  (∀ j, truthy j = false →
     create_table notion PAGE_ID (Parsed j) w
     = (Ok (Response 400 (dict1 "error" (JStr "Missing table name or fields"))),
        w))
  ∧ (∀ data : gmap string json,
       data !! "table" = None ∨ data !! "fields" = None →
       create_table notion PAGE_ID (Parsed (JDict data)) w
       = (Ok (Response 400
                (dict1 "error" (JStr "Missing table name or fields"))), w))
  ∧ (∀ data : gmap string json,
       data !! "database_id" = None ∨ data !! "values" = None →
       insert_row notion (Parsed (JDict data)) w
       = (Ok (Response 400
                (dict1 "error" (JStr "Missing database_id or values"))), w))
  ∧ (∀ data : gmap string json,
       data !! "database_id" = None ∨ data !! "fields" = None →
       update_table notion (Parsed (JDict data)) w
       = (Ok (Response 400
                (dict1 "error" (JStr "Missing database_id or fields"))), w))
  ∧ (∀ data : gmap string json,
       data !! "database_id" = None →
       get_rows notion (Parsed (JDict data)) w
       = (Ok (Response 400 (dict1 "error" (JStr "Missing database_id"))), w))
  ∧ create_table notion PAGE_ID Malformed w = (Raise BadRequest, w)
  ∧ insert_row notion Malformed w = (Raise BadRequest, w)
  ∧ update_table notion Malformed w = (Raise BadRequest, w)
  ∧ get_rows notion Malformed w = (Raise BadRequest, w).
Proof.
  assert (∀ (data : gmap string json) k,
            data !! k = None → ∀ v, data !! k = Some v → truthy v = false) as Hno
    by (intros data k Hnone v Hv; congruence).
  split; [|split; [|split; [|split; [|split]]]].
  - intros j Hj.
    apply (create_table_missing notion PAGE_ID j ∅ w (py_or_falsy j Hj)).
    left. by rewrite lookup_empty.
  - intros data Hnone.
    destruct (truthy (JDict data)) eqn:Hd.
    + apply (create_table_missing notion PAGE_ID (JDict data) data w).
      * unfold py_or. by rewrite Hd.
      * destruct Hnone as [H|H]; [left|right]; by rewrite H.
    + apply (create_table_missing notion PAGE_ID (JDict data) ∅ w).
      * by apply py_or_falsy.
      * left. by rewrite lookup_empty.
  - intros data [H|H]; apply insert_row_missing; [left|right]; by apply Hno.
  - intros data [H|H]; apply update_table_missing; [left|right]; by apply Hno.
  - intros data H. apply get_rows_missing. by apply Hno.
  - repeat split; reflexivity.
Qed.

Lemma request_body_tolerance_witness :
  create_table (flaky 0) (JStr "page-1") (Parsed JNull) (World 0%nat [])
  = (Ok (Response 400 (dict1 "error" (JStr "Missing table name or fields"))),
     World 0%nat [])
  ∧ get_rows (flaky 0) (Parsed (JDict {[ "limit" := JInt 5 ]}))
             (World 0%nat [])
    = (Ok (Response 400 (dict1 "error" (JStr "Missing database_id"))),
       World 0%nat []).
Proof.
  pose proof (request_body_tolerance (flaky 0) (JStr "page-1") (World 0%nat []))
    as (Hfalsy & _ & _ & _ & Hobject & _).
  split.
  - apply (Hfalsy JNull). reflexivity.
  - apply (Hobject {[ "limit" := JInt 5 ]}). vm_compute. reflexivity.
Defined.

(** C9 as stated fails: a body that does not parse is not taken as the
    empty object.  The empty object gets the handler's 400; the
    unparsable body raises [BadRequest] out of the handler. *)
Lemma malformed_body_is_not_empty_object :
  create_table (flaky 0) (JStr "page-1") (Parsed (JDict ∅)) (World 0%nat [])
  = (Ok (Response 400 (dict1 "error" (JStr "Missing table name or fields"))),
     World 0%nat [])
  ∧ create_table (flaky 0) (JStr "page-1") Malformed (World 0%nat [])
    = (Raise BadRequest, World 0%nat [])
  ∧ create_table (flaky 0) (JStr "page-1") Malformed (World 0%nat [])
    ≠ create_table (flaky 0) (JStr "page-1") (Parsed (JDict ∅))
                   (World 0%nat []).
Proof.
  split; [|split].
  - vm_compute. reflexivity.
  - reflexivity.
  - vm_compute. discriminate.
Qed.

(** ** What the vendor is sent *)

Lemma sent_log {VS} (ev : event) (w : @world (VS * list vendor_request)) :
  sent (log ev w) = sent w.
Proof. reflexivity. Qed.

(** A wrapped request reaches a recording vendor once per attempt. *)
Lemma safe_notion_call_sent {VS} (notion : vendor_request → VS → result json * VS)
    (req : vendor_request) (retries delay : Z)
    (w : @world (VS * list vendor_request)) :
  ∃ n : nat,
    Z.of_nat n ≤ Z.max 0 retries
    ∧ sent (safe_notion_call (recording notion req) retries delay w).2
      = sent w ++ replicate (S n) req.
Proof.
  remember (Z.to_nat retries) as fuel eqn:Hfuel.
  revert retries w Hfuel.
  induction fuel as [|fuel IH]; intros retries w Hfuel;
    rewrite safe_notion_call_eq;
    destruct (recording notion req (vendor w)) as [r s] eqn:Hf;
    rewrite (invoke_eq _ _ _ _ Hf);
    (assert (s.2 = sent w ++ [req]) as Hs
       by (unfold recording in Hf; destruct (notion req (vendor w).1);
           by inversion Hf));
    (destruct r as [v|e]; [exists 0%nat; simpl; split; [lia|done]|]);
    (destruct (decide (retries > 0)) as [Hpos|Hneg];
       [|exists 0%nat; simpl; split; [lia|done]]);
    unfold time_sleep;
    (destruct (decide (delay < 0)) as [Hdelay|Hdelay];
       [exists 0%nat; simpl; split; [lia|done]|]).
  - lia.
  - destruct (IH (retries - 1) (log (EvSleep delay) (World s (trace w ++ [EvCall]))))
      as (n & Hn & Htr); [lia|].
    exists (S n). split; [lia|].
    rewrite Htr, sent_log. unfold sent at 1. simpl vendor. rewrite Hs.
    by rewrite <- app_assoc.
Qed.

Lemma create_table_sent {VS} (notion : vendor_request → VS → result json * VS)
    (PAGE_ID table_name : json) (data fields : gmap string json)
    (w : @world (VS * list vendor_request)) :
  data !! "table" = Some table_name → truthy table_name = true →
  data !! "fields" = Some (JDict fields) → fields ≠ ∅ →
  ∃ n : nat,
    (1 ≤ n ≤ 2)%nat
    ∧ sent (create_table (recording notion) PAGE_ID (Parsed (JDict data)) w).2
      = sent w
        ++ replicate n
             (DatabasesCreate
                (dict2 "type" (JStr "page_id") "page_id" PAGE_ID)
                (JList [dict2 "type" (JStr "text")
                              "text" (dict1 "content" table_name)])
                (JDict (create_table_properties fields))).
Proof.
  intros Htable Htn Hfields Hne.
  assert (truthy (JDict fields) = true) as Hf
    by (simpl; by rewrite bool_decide_eq_false_2).
  rewrite (create_table_valid _ _ _ _ _ _ Htable Htn Hfields Hf).
  unfold try_except. rewrite create_table_try_eq.
  unfold safe_notion_call_default, create_db.
  destruct (safe_notion_call_sent notion
              (DatabasesCreate
                 (dict2 "type" (JStr "page_id") "page_id" PAGE_ID)
                 (JList [dict2 "type" (JStr "text")
                               "text" (dict1 "content" table_name)])
                 (JDict (create_table_properties fields))) 1 2 w)
    as (n & Hn & Hsent).
  exists (S n). split; [lia|]. rewrite <- Hsent.
  destruct (safe_notion_call _ 1 2 w) as [[db|e] w1]; simpl.
  - destruct (py_getitem db "id"); reflexivity.
  - reflexivity.
Qed.

(** ** Schemas *)

Lemma sample_fields_no_title (name : string) (ftype : json) :
  sample_fields !! name = Some ftype → ftype ≠ JStr "title".
Proof.
  unfold sample_fields. intros H ->.
  apply lookup_insert_Some in H as [[_ H]|[_ H]]; [discriminate H|].
  apply lookup_singleton_Some in H as [_ H]. discriminate H.
Qed.

(** C3, as the code has it.  Both if/elif chains compare the declared
    kind with the vendor's own tags: "title" gives the title fragment,
    "rich_text" the rich-text fragment, "select" the select fragment
    (with an empty [options] list in [update_table]); any other value,
    "rich text" and "single-select" included, gives the rich-text
    fragment.  Each loop assigns every declared name its fragment, so no
    kind is rejected. *)
Theorem field_kinds_mapped :
  (create_field (JStr "title") = dict1 "title" (JDict ∅)
   ∧ create_field (JStr "rich_text") = dict1 "rich_text" (JDict ∅)
   ∧ create_field (JStr "select") = dict1 "select" (JDict ∅)
   ∧ update_field (JStr "title") = dict1 "title" (JDict ∅)
   ∧ update_field (JStr "rich_text") = dict1 "rich_text" (JDict ∅)
   ∧ update_field (JStr "select") = dict1 "select" (dict1 "options" (JList [])))
  ∧ (∀ ftype,
       ftype ≠ JStr "title" → ftype ≠ JStr "rich_text" → ftype ≠ JStr "select" →
       create_field ftype = dict1 "rich_text" (JDict ∅)
       ∧ update_field ftype = dict1 "rich_text" (JDict ∅))
  ∧ (∀ (fields : gmap string json) name,
       assign_fields create_field fields !! name = create_field <$> fields !! name
       ∧ update_table_properties fields !! name
         = update_field <$> fields !! name).
Proof.
  split; [repeat split|split].
  - intros ftype Ht Hr Hs.
    unfold create_field, update_field.
    rewrite <- py_eq_str_true in Ht, Hr, Hs.
    apply not_true_is_false in Ht, Hr, Hs. by rewrite Ht, Hr, Hs.
  - intros fields name. unfold update_table_properties.
    by rewrite !assign_fields_fmap, !lookup_fmap.
Qed.

Lemma field_kinds_mapped_witness :
  create_field (JStr "single-select") = dict1 "rich_text" (JDict ∅)
  ∧ update_field (JStr "single-select") = dict1 "rich_text" (JDict ∅).
Proof.
  apply (proj1 (proj2 field_kinds_mapped) (JStr "single-select"));
    discriminate.
Defined.

(** C3 as stated fails: "single-select" is not one of the compared tags,
    so it falls to the default and no select fragment is produced. *)
Lemma single_select_is_not_select :
  create_field (JStr "single-select") = rich_text_fragment
  ∧ create_field (JStr "single-select") ≠ select_fragment
  ∧ update_field (JStr "single-select") ≠ select_options_fragment.
Proof.
  split; [reflexivity|].
  split; intros H; apply (f_equal (has_key "select")) in H;
    vm_compute in H; discriminate H.
Qed.

(** C2, as the code has it.  When no field is declared "title", the
    schema sent to the vendor maps "Name" to the title fragment, "Name" is
    its only field of title kind, and every declared field with another
    name is there with its own fragment. *)
Theorem synthesized_Name_keeps_other_fields {VS : Type}
    (notion : vendor_request → VS → result json * VS) (PAGE_ID table_name : json)
    (data fields : gmap string json) (w : @world (VS * list vendor_request)) :
  data !! "table" = Some table_name → truthy table_name = true →
  data !! "fields" = Some (JDict fields) → fields ≠ ∅ →
  (∀ name ftype, fields !! name = Some ftype → ftype ≠ JStr "title") →
  ∃ (n : nat) (properties : gmap string json),
    (1 ≤ n ≤ 2)%nat
    ∧ sent (create_table (recording notion) PAGE_ID (Parsed (JDict data)) w).2
      = sent w
        ++ replicate n
             (DatabasesCreate
                (dict2 "type" (JStr "page_id") "page_id" PAGE_ID)
                (JList [dict2 "type" (JStr "text")
                              "text" (dict1 "content" table_name)])
                (JDict properties))
    ∧ properties !! "Name" = Some (dict1 "title" (JDict ∅))
    ∧ title_fields properties = {[ "Name" := dict1 "title" (JDict ∅) ]}
    ∧ (∀ name, name ≠ "Name" →
         properties !! name = create_field <$> fields !! name).
Proof.
  intros Htable Htn Hfields Hne Hnone.
  destruct (create_table_sent notion PAGE_ID table_name data fields w
              Htable Htn Hfields Hne) as (n & Hn & Hsent).
  exists n, (create_table_properties fields).
  apply declared_title_empty in Hnone.
  split; [done|]. split; [done|]. split; [|split].
  - rewrite create_table_properties_none by done. apply lookup_insert_eq.
  - by apply title_fields_synthesized.
  - intros name Hname. rewrite create_table_properties_none by done.
    rewrite lookup_insert_ne by done. apply lookup_fmap.
Qed.

Lemma synthesized_Name_keeps_other_fields_witness :
  ∃ (n : nat) (properties : gmap string json),
    (1 ≤ n ≤ 2)%nat
    ∧ sent (create_table (recording (flaky 0)) (JStr "page-1")
                         (Parsed (JDict sample_valid)) (World (0%nat, []) [])).2
      = sent (World (0%nat, []) [])
        ++ replicate n
             (DatabasesCreate
                (dict2 "type" (JStr "page_id") "page_id" (JStr "page-1"))
                (JList [dict2 "type" (JStr "text")
                              "text" (dict1 "content" (JStr "Trees"))])
                (JDict properties))
    ∧ properties !! "Name" = Some (dict1 "title" (JDict ∅))
    ∧ title_fields properties = {[ "Name" := dict1 "title" (JDict ∅) ]}
    ∧ (∀ name, name ≠ "Name" →
         properties !! name = create_field <$> sample_fields !! name).
Proof.
  apply (synthesized_Name_keeps_other_fields (flaky 0) (JStr "page-1")
           (JStr "Trees") sample_valid sample_fields (World (0%nat, []) [])).
  - vm_compute. reflexivity.
  - reflexivity.
  - vm_compute. reflexivity.
  - apply insert_non_empty.
  - apply sample_fields_no_title.
Defined.

(** C2 as stated fails: a declared field that is itself named "Name" is
    overwritten by the synthesized title field, so its own fragment is not
    in the schema. *)
Lemma synthesized_Name_overwrites_declared :
  let fields : gmap string json := {[ "Name" := JStr "rich_text" ]} in
  (∀ name ftype, fields !! name = Some ftype → ftype ≠ JStr "title")
  ∧ create_table_properties fields = {[ "Name" := title_fragment ]}
  ∧ ¬ (∀ name ftype, fields !! name = Some ftype →
         create_table_properties fields !! name = Some (create_field ftype)).
Proof.
  simpl. split; [|split].
  - intros name ftype H ->. apply lookup_singleton_Some in H as [_ H].
    discriminate H.
  - vm_compute. reflexivity.
  - intros H. specialize (H "Name" (JStr "rich_text") (lookup_singleton_eq _ _)).
    vm_compute in H. discriminate H.
Qed.

(** C4, as the code has it.  The schema sent for a request that passes
    validation has at least one field of title kind: the synthesized
    "Name" when none is declared "title", and otherwise exactly the fields
    declared "title", however many they are. *)
Theorem title_fields_at_least_one {VS : Type}
    (notion : vendor_request → VS → result json * VS) (PAGE_ID table_name : json)
    (data fields : gmap string json) (w : @world (VS * list vendor_request)) :
  data !! "table" = Some table_name → truthy table_name = true →
  data !! "fields" = Some (JDict fields) → fields ≠ ∅ →
  ∃ (n : nat) (properties : gmap string json),
    (1 ≤ n ≤ 2)%nat
    ∧ sent (create_table (recording notion) PAGE_ID (Parsed (JDict data)) w).2
      = sent w
        ++ replicate n
             (DatabasesCreate
                (dict2 "type" (JStr "page_id") "page_id" PAGE_ID)
                (JList [dict2 "type" (JStr "text")
                              "text" (dict1 "content" table_name)])
                (JDict properties))
    ∧ size (title_fields properties)
      = (1 `max` size (declared_title fields))%nat
    ∧ (declared_title fields = ∅ →
       title_fields properties = {[ "Name" := dict1 "title" (JDict ∅) ]})
    ∧ (declared_title fields ≠ ∅ →
       title_fields properties = create_field <$> declared_title fields).
Proof.
  intros Htable Htn Hfields Hne.
  destruct (create_table_sent notion PAGE_ID table_name data fields w
              Htable Htn Hfields Hne) as (n & Hn & Hsent).
  exists n, (create_table_properties fields).
  split; [done|]. split; [done|]. split; [|split].
  - apply title_count.
  - apply title_fields_synthesized.
  - intros Hsome. rewrite create_table_properties_some by done.
    apply title_fields_create.
Qed.

Lemma title_fields_at_least_one_witness :
  ∃ (n : nat) (properties : gmap string json),
    (1 ≤ n ≤ 2)%nat
    ∧ sent (create_table (recording (flaky 0)) (JStr "page-1")
                         (Parsed (JDict sample_valid)) (World (0%nat, []) [])).2
      = sent (World (0%nat, []) [])
        ++ replicate n
             (DatabasesCreate
                (dict2 "type" (JStr "page_id") "page_id" (JStr "page-1"))
                (JList [dict2 "type" (JStr "text")
                              "text" (dict1 "content" (JStr "Trees"))])
                (JDict properties))
    ∧ size (title_fields properties)
      = (1 `max` size (declared_title sample_fields))%nat
    ∧ (declared_title sample_fields = ∅ →
       title_fields properties = {[ "Name" := dict1 "title" (JDict ∅) ]})
    ∧ (declared_title sample_fields ≠ ∅ →
       title_fields properties = create_field <$> declared_title sample_fields).
Proof.
  apply (title_fields_at_least_one (flaky 0) (JStr "page-1")
           (JStr "Trees") sample_valid sample_fields (World (0%nat, []) [])).
  - vm_compute. reflexivity.
  - reflexivity.
  - vm_compute. reflexivity.
  - apply insert_non_empty.
Defined.

(** C4 as stated fails: a request declaring two fields "title" passes
    validation, is answered 200, and the one schema sent has two fields of
    title kind. *)
Lemma two_declared_titles_both_sent :
  let data : gmap string json :=
    <[ "fields" := JDict (<[ "B" := JStr "title" ]> {[ "A" := JStr "title" ]}) ]>
      {[ "table" := JStr "Trees" ]} in
  let run := create_table (recording (flaky 0)) (JStr "page-1")
                          (Parsed (JDict data)) (World (0%nat, []) []) in
  ∃ parent title properties,
    run.1 = Ok (Response 200 (dict2 "message" (JStr "OK")
                                    "database_id" (JStr "db-1")))
    ∧ sent run.2 = [DatabasesCreate parent title (JDict properties)]
    ∧ size (title_fields properties) = 2%nat
    ∧ size (title_fields properties) ≠ 1%nat.
Proof.
  eexists _, _, _. split; [vm_compute; reflexivity|].
  split; [vm_compute; reflexivity|].
  split; [vm_compute; reflexivity|].
  vm_compute. discriminate.
Qed.

(** ** Row values *)

Lemma lower_upper_char (c : ascii) :
  lower_char c = c → lower_char (upper_char c) = c.
Proof.
  destruct c as [[] [] [] [] [] [] [] []]; vm_compute; congruence.
Qed.

Lemma upper_lower_char (c : ascii) :
  lower_char c = c ∨ upper_char (lower_char c) = c.
Proof.
  destruct c as [[] [] [] [] [] [] [] []]; vm_compute; auto.
Qed.

Lemma any_case_lower (k : string) : any_case k (lower k).
Proof.
  induction k as [|c k IH]; simpl; [constructor|].
  destruct (upper_lower_char c) as [Hc|Hc].
  - rewrite Hc. by constructor.
  - rewrite <- Hc at 1. by constructor.
Qed.

Lemma any_case_lower_eq (k word : string) :
  any_case k word → lower word = word → lower k = word.
Proof.
  induction 1 as [|c k word _ IH|c k word _ IH]; simpl; [done| |];
    intros Hword; injection Hword as Hc Hw.
  - by rewrite Hc, IH.
  - by rewrite lower_upper_char, IH.
Qed.

Lemma lower_any_case (k word : string) :
  lower word = word → (lower k = word ↔ any_case k word).
Proof.
  intros Hword. split.
  - intros <-. apply any_case_lower.
  - intros H. by apply any_case_lower_eq.
Qed.

(** C8. [insert_row] encodes each value by its field name, compared
    without regard to letter case: a name spelling "tree" becomes a title
    value holding the scalar as its one text run, a name spelling
    "status" a select value naming the scalar, and any other name a
    rich-text value holding the scalar; the loop stores each encoded
    value under the name as given. *)
Theorem encodeValue_by_name_any_case (k : string) (v : json) :
  (any_case k "tree" →
   encodeValue k v
   = dict1 "title" (JList [dict1 "text" (dict1 "content" v)]))
  ∧ (any_case k "status" →
     encodeValue k v = dict1 "select" (dict1 "name" v))
  ∧ (¬ any_case k "tree" → ¬ any_case k "status" →
     encodeValue k v
     = dict1 "rich_text" (JList [dict1 "text" (dict1 "content" v)]))
  ∧ (∀ values : gmap string json,
       values !! k = Some v →
       insert_row_properties values !! k = Some (encodeValue k v)).
Proof.
  unfold encodeValue. split; [|split; [|split]].
  - intros H. apply lower_any_case in H; [|done]. by rewrite H.
  - intros H. apply lower_any_case in H; [|done]. by rewrite H.
  - intros Ht Hs.
    rewrite <- lower_any_case in Ht, Hs by done.
    apply String.eqb_neq in Ht, Hs. by rewrite Ht, Hs.
  - intros values Hk. by rewrite insert_row_properties_lookup, Hk.
Qed.

Lemma any_case_Tree : any_case "Tree" "tree".
Proof.
  apply (any_case_upper "t"). repeat apply any_case_same. apply any_case_nil.
Defined.

Lemma encodeValue_by_name_any_case_witness :
  encodeValue "Tree" (JStr "Oak")
  = dict1 "title" (JList [dict1 "text" (dict1 "content" (JStr "Oak"))])
  ∧ encodeValue "STATUS" (JStr "Done")
    = dict1 "select" (dict1 "name" (JStr "Done"))
  ∧ encodeValue "Notes" (JStr "x")
    = dict1 "rich_text" (JList [dict1 "text" (dict1 "content" (JStr "x"))])
  ∧ insert_row_properties {[ "Tree" := JStr "Oak" ]} !! "Tree"
    = Some (encodeValue "Tree" (JStr "Oak")).
Proof.
  split; [|split; [|split]].
  - apply (proj1 (encodeValue_by_name_any_case "Tree" (JStr "Oak"))).
    apply any_case_Tree.
  - apply (proj1 (proj2 (encodeValue_by_name_any_case "STATUS" (JStr "Done")))).
    apply (any_case_upper "s"), (any_case_upper "t"), (any_case_upper "a"),
      (any_case_upper "t"), (any_case_upper "u"), (any_case_upper "s"),
      any_case_nil.
  - apply (proj1 (proj2 (proj2 (encodeValue_by_name_any_case "Notes" (JStr "x"))))).
    + intros H. apply any_case_lower_eq in H; [|done]. discriminate H.
    + intros H. apply any_case_lower_eq in H; [|done]. discriminate H.
  - apply (proj2 (proj2 (proj2 (encodeValue_by_name_any_case "Tree" (JStr "Oak"))))).
    vm_compute. reflexivity.
Defined.

(** ** Row decoding *)

Lemma truthy_dict_lookup (m : gmap string json) (k : string) (v : json) :
  m !! k = Some v → truthy (JDict m) = true.
Proof.
  intros H. simpl. rewrite bool_decide_eq_false_2; [done|].
  intros ->. by rewrite lookup_empty in H.
Qed.

Lemma decode_value_runs (runs : list json) (s : json) :
  run_text runs s →
  (if truthy (JList runs)
   then r ← py_getitem0 (JList runs); x ← py_getitem r "text";
        py_getitem x "content"
   else Ok (JStr "")) = Ok s.
Proof.
  destruct 1 as [|r t content rest Hr Ht]; simpl; [done|].
  unfold mbind, result_bind. simpl. rewrite Hr. simpl. by rewrite Ht.
Qed.

Lemma decodes_to_decode_value (value s : json) :
  decodes_to value s → decode_value value = Ok s.
Proof.
  destruct 1 as [m runs s Hty Hsub Hruns|m runs s Hty Hsub Hruns
                |m Hty Hsub|m o name Hty Hsub Hname|m ty Hty Ht Hr Hs];
    unfold decode_value, mbind, result_bind; simpl; rewrite Hty; simpl.
  - rewrite Hsub. by apply decode_value_runs.
  - rewrite Hsub. by apply decode_value_runs.
  - by rewrite Hsub.
  - rewrite Hsub. rewrite (truthy_dict_lookup o "name" name Hname).
    simpl. by rewrite Hname.
  - rewrite <- py_eq_str_true in Ht, Hr, Hs.
    apply not_true_is_false in Ht, Hr, Hs. by rewrite Ht, Hr, Hs.
Qed.

Lemma decodeRow_ok (props : gmap string json) :
  (∀ key value, props !! key = Some value → is_Some (decoded value)) →
  decodeRow props = Ok (omap decoded props).
Proof.
  unfold decodeRow.
  apply (map_fold_weak_ind
           (λ r m, (∀ key value, m !! key = Some value → is_Some (decoded value))
                   → r = Ok (omap decoded m))).
  - intros _. by rewrite omap_empty.
  - intros key value m r Hfresh IH Hall.
    rewrite IH.
    + destruct (Hall key value (lookup_insert_eq _ _ _)) as [s Hs].
      rewrite (omap_insert_Some _ _ _ _ _ Hs).
      unfold decoded in Hs. unfold mbind, result_bind.
      destruct (decode_value value); by inversion Hs.
    + intros key' value' Hk. apply (Hall key').
      rewrite lookup_insert_ne; [done|]. intros ->. congruence.
Qed.

Lemma decodeRow_raise (props : gmap string json) :
  (∃ key value, props !! key = Some value ∧ decoded value = None) →
  ∃ e, decodeRow props = Raise e.
Proof.
  unfold decodeRow.
  apply (map_fold_weak_ind
           (λ r m, (∃ key value, m !! key = Some value ∧ decoded value = None)
                   → ∃ e, r = Raise e)).
  - intros (key & value & Hk & _). by rewrite lookup_empty in Hk.
  - intros key value m r Hfresh IH (key' & value' & Hk & Hnone).
    destruct r as [row|e]; [|by exists e].
    destruct (decide (key = key')) as [<-|Hne].
    + rewrite lookup_insert_eq in Hk. injection Hk as <-.
      unfold decoded in Hnone. unfold mbind, result_bind.
      destruct (decode_value value) as [s|e]; [discriminate Hnone|by exists e].
    + rewrite lookup_insert_ne in Hk by done.
      destruct IH as [e He]; [by exists key', value'|discriminate He].
Qed.

Lemma decodeRow_shapes (props row : gmap string json) :
  map_Forall2 (λ _, decodes_to) props row → decodeRow props = Ok row.
Proof.
  intros Hshape. rewrite decodeRow_ok.
  - f_equal. apply map_eq. intros key. rewrite lookup_omap.
    destruct (Hshape key) as [value s Hdec|]; simpl; [|done].
    unfold decoded. by rewrite (decodes_to_decode_value _ _ Hdec).
  - intros key value Hk. specialize (Hshape key). rewrite Hk in Hshape.
    inversion Hshape as [? s Hdec|]; subst.
    unfold decoded. by rewrite (decodes_to_decode_value _ _ Hdec).
Qed.

(** C5, as the code has it.  The decoder returns for every property map
    whose values have the shapes it reads: a title or rich-text list gives
    its first run's text content, and "" when it has no run; a select
    gives its option's name, and "" when unset; any other [type] gives
    "[unsupported type]".  Sub-fields are indexed, not looked up with a
    default: a value without [type], or without the sub-field its type
    names, raises [KeyError], and a row with a value that does not decode
    raises as a whole. *)
Theorem decodeRow_on_read_shapes :
  (∀ m : gmap string json,
     m !! "type" = Some (JStr "title") → m !! "title" = Some (JList []) →
     decode_value (JDict m) = Ok (JStr ""))
  ∧ (∀ m : gmap string json,
       m !! "type" = Some (JStr "rich_text") →
       m !! "rich_text" = Some (JList []) →
       decode_value (JDict m) = Ok (JStr ""))
  ∧ (∀ m : gmap string json,
       m !! "type" = Some (JStr "select") → m !! "select" = Some JNull →
       decode_value (JDict m) = Ok (JStr ""))
  ∧ (∀ (m : gmap string json) ty,
       m !! "type" = Some ty →
       ty ≠ JStr "title" → ty ≠ JStr "rich_text" → ty ≠ JStr "select" →
       decode_value (JDict m) = Ok (JStr "[unsupported type]"))
  ∧ (∀ props row : gmap string json,
       map_Forall2 (λ _, decodes_to) props row → decodeRow props = Ok row)
  ∧ (∀ m : gmap string json,
       m !! "type" = None → decode_value (JDict m) = Raise (KeyError "type"))
  ∧ (∀ (m : gmap string json) kind,
       kind ∈ ["title"; "rich_text"; "select"] →
       m !! "type" = Some (JStr kind) → m !! kind = None →
       decode_value (JDict m) = Raise (KeyError kind))
  ∧ (∀ (props : gmap string json) key value e,
       props !! key = Some value → decode_value value = Raise e →
       ∃ e', decodeRow props = Raise e').
Proof.
  repeat apply conj.
  - intros m Hty Hsub. apply decodes_to_decode_value.
    eapply decodes_title; [done..|constructor].
  - intros m Hty Hsub. apply decodes_to_decode_value.
    eapply decodes_rich_text; [done..|constructor].
  - intros m Hty Hsub. apply decodes_to_decode_value.
    by apply decodes_select_unset.
  - intros m ty Hty Ht Hr Hs. apply decodes_to_decode_value.
    by eapply decodes_other.
  - apply decodeRow_shapes.
  - intros m Hty. unfold decode_value, mbind, result_bind. simpl.
    by rewrite Hty.
  - intros m kind Hkind Hty Hsub.
    unfold decode_value, mbind, result_bind. simpl. rewrite Hty.
    repeat (apply elem_of_cons in Hkind as [->|Hkind]);
      [simpl; by rewrite Hsub..|by apply elem_of_nil in Hkind].
  - intros props key value e Hk He. apply decodeRow_raise.
    exists key, value. split; [done|]. unfold decoded. by rewrite He.
Qed.

Lemma decodeRow_on_read_shapes_witness : decodeRow sample_props = Ok sample_row.
Proof.
  apply (proj1 (proj2 (proj2 (proj2 (proj2 decodeRow_on_read_shapes))))
           sample_props sample_row).
  intros key. unfold sample_props, sample_row.
  destruct (decide (key = "Done")) as [->|HD].
  { rewrite !lookup_insert_eq. constructor.
    apply (decodes_other _ (JStr "checkbox")); [vm_compute; reflexivity|discriminate..]. }
  rewrite !(lookup_insert_ne _ "Done") by done.
  destruct (decide (key = "Status")) as [->|HS].
  { rewrite !lookup_insert_eq. constructor.
    apply decodes_select_unset; vm_compute; reflexivity. }
  rewrite !(lookup_insert_ne _ "Status") by done.
  destruct (decide (key = "Tree")) as [->|HT].
  { rewrite !lookup_singleton_eq. constructor.
    apply (decodes_title _ []); [vm_compute; reflexivity..|constructor]. }
  rewrite !lookup_singleton_ne by done. constructor.
Defined.

(** C5 as stated fails: a title property without its [title] sub-field
    raises, and so does a title whose first run is a mention; [get_rows]
    then answers 500 for the whole listing. *)
Lemma decodeRow_raises_on_absent_subfield :
  decodeRow {[ "Tree" := dict1 "type" (JStr "title") ]}
  = Raise (KeyError "title")
  ∧ decodeRow {[ "Tree" := mention_title ]} = Raise (KeyError "text")
  ∧ get_rows
      (answering
         (dict1 "results"
                (JList [dict1 "properties"
                              (JDict {[ "Tree" := mention_title ]})])))
      (Parsed (dict1 "database_id" (JStr "db-1"))) (World () [])
    = (Ok (Response 500 (dict1 "error" (JStr "'text'"))),
       World () [EvCall; EvPrint "GET error: " (JStr "'text'")]).
Proof.
  split; [|split]; vm_compute; reflexivity.
Qed.

(** ** Round trip through the vendor *)

Lemma dict1_inj (k1 k2 : string) (v1 v2 : json) :
  dict1 k1 v1 = dict1 k2 v2 → k1 = k2 ∧ v1 = v2.
Proof.
  intros H. apply (f_equal (λ j, py_getitem j k1)) in H.
  unfold dict1, py_getitem in H. rewrite lookup_singleton_eq in H.
  destruct (({[k2 := v2]} : gmap string json) !! k1) as [v|] eqn:Hk;
    [|discriminate H].
  apply lookup_singleton_Some in Hk as [-> ->]. by injection H as ->.
Qed.

Lemma text_run_text (v : json) : run_text [text_run v] v.
Proof.
  unfold text_run, dict1.
  apply (run_text_first _ {[ "content" := v ]}); apply lookup_singleton_eq.
Qed.

Lemma extends_str (s : string) (c : json) : extends (JStr s) c → c = JStr s.
Proof. by inversion 1. Qed.

Lemma extends_dict1 (k : string) (v d : json) :
  extends (dict1 k v) d →
  ∃ (m : gmap string json) v', d = JDict m ∧ m !! k = Some v' ∧ extends v v'.
Proof.
  intros H. remember (dict1 k v) as written eqn:Hw.
  destruct H as [x|l l' _|m m' Hm].
  - subst. exists {[ k := v ]}, v. split; [done|].
    split; [apply lookup_singleton_eq|apply extends_same].
  - discriminate Hw.
  - assert (m !! k = Some v) as Hk.
    { apply (f_equal (λ j, py_getitem j k)) in Hw.
      unfold dict1, py_getitem in Hw. rewrite lookup_singleton_eq in Hw.
      destruct (m !! k); [by injection Hw as ->|discriminate Hw]. }
    destruct (Hm k v Hk) as (v' & Hk' & Hv). by exists m', v'.
Qed.

Lemma extends_list1 (a p : json) :
  extends (JList [a]) p → ∃ a' rest, p = JList (a' :: rest) ∧ extends a a'.
Proof.
  intros H. remember (JList [a]) as written eqn:Hw.
  destruct H as [x|l l' Hl|m m' _].
  - subst. exists a, []. split; [done|apply extends_same].
  - injection Hw as ->.
    inversion Hl as [|a0 a' l0 l1 Ha Hrest]; subst.
    by exists a', l1.
  - discriminate Hw.
Qed.

Lemma extends_text_run (s : string) (p : json) :
  extends (JList [text_run (JStr s)]) p →
  ∃ runs, p = JList runs ∧ run_text runs (JStr s).
Proof.
  intros H. apply extends_list1 in H as (run & rest & -> & Hrun).
  apply extends_dict1 in Hrun as (r & text & -> & Hr & Htext).
  apply extends_dict1 in Htext as (t & content & -> & Ht & Hcontent).
  apply extends_str in Hcontent as ->.
  exists (JDict r :: rest). split; [done|]. by apply (run_text_first r t).
Qed.

Lemma stored_as_decodes_to (k s : string) (stored : json) :
  stored_as (encodeValue k (JStr s)) stored → decodes_to stored (JStr s).
Proof.
  intros (kind & payload & m & payload' & Hwritten & -> & Hty & Hsub & Hext).
  unfold encodeValue in Hwritten.
  destruct (String.eqb (lower k) "tree");
    [|destruct (String.eqb (lower k) "status")];
    apply dict1_inj in Hwritten as [<- <-].
  - apply extends_text_run in Hext as (runs & -> & Hruns).
    by eapply decodes_title.
  - apply extends_dict1 in Hext as (o & name & -> & Ho & Hname).
    apply extends_str in Hname as ->. by eapply decodes_select.
  - apply extends_text_run in Hext as (runs & -> & Hruns).
    by eapply decodes_rich_text.
Qed.

Lemma stored_as_tagged (kind : string) (payload : json) :
  kind ≠ "type" → stored_as (dict1 kind payload) (tagged kind payload).
Proof.
  intros Hkind.
  exists kind, payload, (<[ kind := payload ]> {[ "type" := JStr kind ]}),
    payload.
  split; [done|]. split; [done|]. split; [|split].
  - rewrite lookup_insert_ne by done. apply lookup_singleton_eq.
  - apply lookup_insert_eq.
  - apply extends_same.
Defined.

Lemma store_tagged_dict1 (kind : string) (payload : json) :
  store_tagged (dict1 kind payload) = tagged kind payload.
Proof. unfold store_tagged, dict1. by rewrite map_to_list_singleton. Qed.

Lemma stored_as_store_tagged (k : string) (v : json) :
  stored_as (encodeValue k v) (store_tagged (encodeValue k v)).
Proof.
  unfold encodeValue.
  destruct (String.eqb (lower k) "tree");
    [|destruct (String.eqb (lower k) "status")];
    rewrite store_tagged_dict1; by apply stored_as_tagged.
Qed.

Lemma decodeRow_lookup (props row : gmap string json) (key : string)
    (value : json) :
  decodeRow props = Ok row →
  props !! key = Some value →
  ∃ s, decode_value value = Ok s ∧ row !! key = Some s.
Proof.
  intros Hrow Hkey.
  assert (∀ k v, props !! k = Some v → is_Some (decoded v)) as Hall.
  { intros k v Hk. destruct (decoded v) as [s|] eqn:Hd; [done|].
    destruct (decodeRow_raise props) as [e He]; [by exists k, v|].
    rewrite He in Hrow. discriminate Hrow. }
  rewrite (decodeRow_ok props Hall) in Hrow. injection Hrow as <-.
  destruct (Hall key value Hkey) as [s Hs]. exists s.
  rewrite lookup_omap, Hkey. simpl. split; [|done].
  unfold decoded in Hs. destruct (decode_value value); by inversion Hs.
Qed.

(** C6. Whatever the field name, a scalar string encoded by
    [insert_row] and handed back by the vendor in its stored form
    decodes in [get_rows] to the same string; so a whole record of
    scalar strings, stored under the names it was written with, decodes
    to itself.  Every record [insert_row] encodes has such a stored
    form.  When the stored record holds further properties of the
    collection beside the written ones, every row decoded from it still
    gives each written name its string. *)
Theorem encode_store_decode :
  (∀ (k s : string) (stored : json),
     stored_as (encodeValue k (JStr s)) stored →
     decode_value stored = Ok (JStr s))
  ∧ (∀ (values : gmap string string) (stored : gmap string json),
       map_Forall2 (λ _, stored_as)
                   (insert_row_properties (JStr <$> values)) stored →
       decodeRow stored = Ok (JStr <$> values))
  ∧ (∀ values : gmap string string,
       let written := insert_row_properties (JStr <$> values) in
       map_Forall2 (λ _, stored_as) written (store_tagged <$> written)
       ∧ decodeRow (store_tagged <$> written) = Ok (JStr <$> values))
  ∧ (∀ (values : gmap string string) (stored row : gmap string json),
       (∀ key written,
          insert_row_properties (JStr <$> values) !! key = Some written →
          ∃ p, stored !! key = Some p ∧ stored_as written p) →
       decodeRow stored = Ok row →
       ∀ key s, values !! key = Some s → row !! key = Some (JStr s)).
Proof.
  assert (∀ (values : gmap string string) (stored : gmap string json),
            map_Forall2 (λ _, stored_as)
                        (insert_row_properties (JStr <$> values)) stored →
            decodeRow stored = Ok (JStr <$> values)) as Hrecord.
  { intros values stored Hstored. apply decodeRow_shapes.
    intros key. specialize (Hstored key).
    rewrite insert_row_properties_lookup in Hstored.
    rewrite lookup_fmap in *.
    destruct (values !! key) as [s|]; simpl in *;
      inversion Hstored as [written p Hp|]; subst; constructor.
    by apply (stored_as_decodes_to key). }
  split; [|split; [done|split]].
  - intros k s stored Hstored.
    by apply decodes_to_decode_value, (stored_as_decodes_to k).
  - intros values written.
    assert (map_Forall2 (λ _, stored_as) written (store_tagged <$> written))
      as Hstored.
    { intros key. subst written.
      rewrite lookup_fmap, insert_row_properties_lookup.
      destruct ((JStr <$> values) !! key) as [v|]; simpl; constructor.
      apply stored_as_store_tagged. }
    split; [done|]. by apply Hrecord.
  - intros values stored row Hstored Hrow key s Hkey.
    destruct (Hstored key (encodeValue key (JStr s))) as (p & Hp & Has).
    { by rewrite insert_row_properties_lookup, lookup_fmap, Hkey. }
    destruct (decodeRow_lookup stored row key p Hrow Hp) as (c & Hc & Hrk).
    apply (stored_as_decodes_to key), decodes_to_decode_value in Has.
    rewrite Has in Hc. by injection Hc as <-.
Qed.

Lemma stored_as_title_Oak :
  stored_as (encodeValue "Tree" (JStr "Oak")) stored_title_Oak.
Proof.
  eexists "title", _, _, _.
  split; [reflexivity|]. split; [reflexivity|].
  split; [vm_compute; reflexivity|]. split; [vm_compute; reflexivity|].
  apply extends_list. constructor; [|constructor].
  apply extends_dict. intros k v Hk.
  apply lookup_singleton_Some in Hk as [<- <-].
  eexists. split; [vm_compute; reflexivity|].
  apply extends_dict. intros k v Hk.
  apply lookup_singleton_Some in Hk as [<- <-].
  eexists. split; [vm_compute; reflexivity|apply extends_same].
Defined.

Lemma stored_as_select_Done :
  stored_as (encodeValue "Status" (JStr "Done")) stored_select_Done.
Proof.
  eexists "select", _, _, _.
  split; [reflexivity|]. split; [reflexivity|].
  split; [vm_compute; reflexivity|]. split; [vm_compute; reflexivity|].
  apply extends_dict. intros k v Hk.
  apply lookup_singleton_Some in Hk as [<- <-].
  eexists. split; [vm_compute; reflexivity|apply extends_same].
Defined.

Lemma encode_store_decode_witness :
  decode_value stored_title_Oak = Ok (JStr "Oak")
  ∧ decode_value stored_select_Done = Ok (JStr "Done")
  ∧ decode_value (tagged "rich_text" (JList [text_run (JStr "x")]))
    = Ok (JStr "x")
  ∧ decodeRow (<[ "Status" := stored_select_Done ]>
                 {[ "Tree" := stored_title_Oak ]})
    = Ok (JStr <$> (<[ "Status" := "Done" ]> {[ "Tree" := "Oak" ]})).
Proof.
  split; [|split; [|split]].
  - apply (proj1 encode_store_decode "Tree" "Oak"), stored_as_title_Oak.
  - apply (proj1 encode_store_decode "Status" "Done"), stored_as_select_Done.
  - apply (proj1 encode_store_decode "Notes" "x").
    apply (stored_as_tagged "rich_text"). discriminate.
  - apply (proj1 (proj2 encode_store_decode)
             (<[ "Status" := "Done" ]> {[ "Tree" := "Oak" ]})).
    intros key. rewrite insert_row_properties_lookup, lookup_fmap.
    destruct (decide (key = "Status")) as [->|HS].
    { rewrite !lookup_insert_eq. constructor. apply stored_as_select_Done. }
    rewrite !(lookup_insert_ne _ "Status") by done.
    destruct (decide (key = "Tree")) as [->|HT].
    { rewrite !lookup_singleton_eq. constructor. apply stored_as_title_Oak. }
    rewrite !lookup_singleton_ne by done. constructor.
Defined.

(** * Further properties *)

(** ** Retry with more retries and other delays *)

(** X1. [safe_notion_call] stops at the first success: when the operation
    fails some number of times within [retries] and then returns,
    that value is returned after one sleep per failure and no call
    beyond the successful one.  Stated for at most [nesting_range]
    failures and a [delay] within [sleep_range]. *)
Theorem safe_notion_call_stops_at_success {VS V} (func : VS → result V * VS)
    (retries delay : Z) (w : world) (es : list exn) (s1 : VS) (v : V) (s2 : VS) :
  fails func (vendor w) es s1 →
  func s1 = (Ok v, s2) →
  Z.of_nat (length es) ≤ retries →
  Z.of_nat (length es) ≤ nesting_range →
  0 ≤ delay ≤ sleep_range →
  safe_notion_call func retries delay w
  = (Ok v, World s2 (trace w ++ EvCall :: retried delay (length es))).
Proof.
  revert retries w.
  induction es as [|e es IH]; intros retries w Hes Hok Hlen Hnest Hdelay;
    inversion Hes as [|? ? sa ? ? He Hrest]; subst;
    rewrite safe_notion_call_eq.
  - by rewrite (invoke_eq _ _ _ _ Hok).
  - rewrite (invoke_eq _ _ _ _ He).
    simpl in Hlen, Hnest. destruct (decide (retries > 0)); [|lia].
    rewrite time_sleep_eq by lia.
    rewrite (IH (retries - 1)); [|done|done|lia|lia|done].
    simpl. rewrite retried_S. by rewrite <- !app_assoc.
Qed.

Lemma fails_flaky_twice (req : vendor_request) :
  fails (flaky 2 req) 0%nat
        [Exn "ConnectionError" "attempt 0"; Exn "ConnectionError" "attempt 1"]
        2%nat.
Proof.
  apply (fails_cons _ 0%nat _ 1%nat); [reflexivity|].
  apply (fails_cons _ 1%nat _ 2%nat); [reflexivity|].
  apply fails_nil.
Defined.

Lemma safe_notion_call_stops_at_success_witness :
  safe_notion_call (flaky 2 (DatabasesQuery JNull)) 5 3 (World 0%nat [])
  = (Ok (dict2 "object" (JStr "database") "id" (JStr "db-1")),
     World 3%nat ([] ++ EvCall :: retried 3 2)).
Proof.
  apply (safe_notion_call_stops_at_success
           (flaky 2 (DatabasesQuery JNull)) 5 3 (World 0%nat []) _ 2%nat
           _ 3%nat (fails_flaky_twice _) eq_refl);
    unfold nesting_range, sleep_range; simpl; lia.
Defined.

(** X2. When every attempt fails, [retries + 1] of them for
    [retries >= 0] and the single one otherwise, the exception raised is
    the one of the last attempt, and the earlier ones are dropped.
    Stated for at most [nesting_range] retries and a [delay] within
    [sleep_range]. *)
Theorem safe_notion_call_raises_last {VS V} (func : VS → result V * VS)
    (retries delay : Z) (w : world) (es : list exn) (e : exn) (s' : VS) :
  fails func (vendor w) (es ++ [e]) s' →
  length es = Z.to_nat retries →
  retries ≤ nesting_range →
  0 ≤ delay ≤ sleep_range →
  safe_notion_call func retries delay w
  = (Raise e, World s' (trace w ++ EvCall :: retried delay (length es))).
Proof.
  revert retries w.
  induction es as [|e0 es IH]; intros retries w Hes Hlen Hnest Hdelay;
    inversion Hes as [|? ? sa ? ? He Hrest]; subst;
    rewrite safe_notion_call_eq, (invoke_eq _ _ _ _ He); simpl in Hlen.
  - inversion Hrest; subst.
    destruct (decide (retries > 0)); [lia|done].
  - destruct (decide (retries > 0)); [|lia].
    rewrite time_sleep_eq by lia.
    rewrite (IH (retries - 1)); [|done|lia|lia|done].
    simpl. rewrite retried_S. by rewrite <- !app_assoc.
Qed.

Lemma safe_notion_call_raises_last_witness :
  safe_notion_call (flaky 2 (DatabasesQuery JNull)) 1 3 (World 0%nat [])
  = (Raise (Exn "ConnectionError" "attempt 1"),
     World 2%nat ([] ++ EvCall :: retried 3 1)).
Proof.
  apply (safe_notion_call_raises_last
           (flaky 2 (DatabasesQuery JNull)) 1 3 (World 0%nat [])
           [Exn "ConnectionError" "attempt 0"] _ 2%nat (fails_flaky_twice _));
    [reflexivity|unfold nesting_range; lia|unfold sleep_range; lia].
Defined.

(** X3. A negative [delay] hides the failure it was meant to wait out:
    [time.sleep] raises [ValueError] inside the handler, so after a first
    failure with [retries > 0] the caller gets that [ValueError], and the
    operation is not called again.  Stated for a [delay] within
    [sleep_range] of zero. *)
Theorem safe_notion_call_negative_delay {VS V} (func : VS → result V * VS)
    (retries delay : Z) (w : world) (e : exn) (s1 : VS) :
  func (vendor w) = (Raise e, s1) →
  0 < retries →
  - sleep_range ≤ delay < 0 →
  safe_notion_call func retries delay w
  = (Raise (Exn "ValueError" "sleep length must be non-negative"),
     World s1 (trace w ++ [EvCall])).
Proof.
  intros He Hretries Hdelay.
  rewrite safe_notion_call_eq, (invoke_eq _ _ _ _ He).
  destruct (decide (retries > 0)); [|lia].
  unfold time_sleep. destruct (decide (delay < 0)); [done|lia].
Qed.

Lemma safe_notion_call_negative_delay_witness :
  safe_notion_call (flaky 1 (DatabasesQuery JNull)) 1 (-1) (World 0%nat [])
  = (Raise (Exn "ValueError" "sleep length must be non-negative"),
     World 1%nat ([] ++ [EvCall])).
Proof.
  apply (safe_notion_call_negative_delay
           (flaky 1 (DatabasesQuery JNull)) 1 (-1) (World 0%nat [])
           (Exn "ConnectionError" "attempt 0") 1%nat eq_refl);
    unfold sleep_range; lia.
Defined.

(** ** The handlers on any body *)

Section Handlers.

Context {VS : Type}.
Variable notion : vendor_request → VS → result json * VS.
Variable PAGE_ID : json.

Lemma insert_row_try_eq (db_id : json) (values : gmap string json) (w : world) :
  insert_row_try notion db_id (JDict values) w
  = match safe_notion_call_default
            (insert_page notion db_id (insert_row_properties values)) w with
    | (Ok page, w1) =>
        match py_getitem page "id" with
        | Ok id =>
            (Ok (Response 200 (dict2 "message" (JStr "OK") "page_id" id)),
             log (EvPrint "Page created: " id) w1)
        | Raise e => (Raise e, w1)
        end
    | (Raise e, w1) => (Raise e, w1)
    end.
Proof.
  unfold insert_row_try, mbind, M_bind, lift, print, mret, M_ret. simpl.
  destruct (safe_notion_call_default _ w) as [[page|e] w1]; [|done].
  destruct (py_getitem page "id") as [id|e]; done.
Qed.

Lemma update_table_try_eq (db_id : json) (new_fields : gmap string json)
    (w : world) :
  update_table_try notion db_id (JDict new_fields) w
  = match safe_notion_call_default
            (update_db notion db_id (update_table_properties new_fields)) w with
    | (Ok _, w1) =>
        (Ok (Response 200
               (dict2 "message" (JStr "Updated") "database_id" db_id)),
         log (EvPrint "Updated database: " db_id) w1)
    | (Raise e, w1) => (Raise e, w1)
    end.
Proof.
  unfold update_table_try, mbind, M_bind, lift, print, mret, M_ret. simpl.
  destruct (safe_notion_call_default _ w) as [[reply|e] w1]; done.
Qed.

Lemma get_rows_try_eq (db_id : json) (w : world) :
  get_rows_try notion db_id w
  = match safe_notion_call_default (query_db notion db_id) w with
    | (Ok response, w1) =>
        match (results ← py_get_default response "results" (JList []);
               results ← py_iter results;
               decode_results results) with
        | Ok rows => (Ok (Response 200 (JList rows)), w1)
        | Raise e => (Raise e, w1)
        end
    | (Raise e, w1) => (Raise e, w1)
    end.
Proof.
  unfold get_rows_try, mbind, M_bind, result_bind, lift, mret, M_ret.
  destruct (safe_notion_call_default _ w) as [[response|e] w1]; [|done].
  destruct (py_get_default response "results" (JList [])) as [results|e];
    [|done].
  destruct (py_iter results) as [l|e]; [|done].
  destruct (decode_results l); done.
Qed.

(** An object body reaches the validation of its handler. *)
Lemma create_table_object (data : gmap string json) (w : world) :
  create_table notion PAGE_ID (Parsed (JDict data)) w
  = let table_name := default JNull (data !! "table") in
    let fields := default JNull (data !! "fields") in
    if negb (truthy table_name) || negb (truthy fields)
    then (Ok (missing "Missing table name or fields"), w)
    else try_except (create_table_try notion PAGE_ID table_name fields)
                    create_table_except w.
Proof.
  unfold create_table, mbind, M_bind, lift. simpl.
  unfold py_or. destruct (truthy (JDict data)) eqn:Hd; simpl.
  - by destruct (negb _ || negb _).
  - simpl in Hd. apply negb_false_iff, bool_decide_eq_true in Hd. subst.
    by rewrite !lookup_empty.
Qed.

Lemma insert_row_object (data : gmap string json) (w : world) :
  insert_row notion (Parsed (JDict data)) w
  = let db_id := default JNull (data !! "database_id") in
    let values := default JNull (data !! "values") in
    if negb (truthy db_id) || negb (truthy values)
    then (Ok (missing "Missing database_id or values"), w)
    else try_except (insert_row_try notion db_id values) insert_row_except w.
Proof.
  unfold insert_row, mbind, M_bind, lift. simpl.
  by destruct (negb _ || negb _).
Qed.

Lemma update_table_object (data : gmap string json) (w : world) :
  update_table notion (Parsed (JDict data)) w
  = let db_id := default JNull (data !! "database_id") in
    let new_fields := default JNull (data !! "fields") in
    if negb (truthy db_id) || negb (truthy new_fields)
    then (Ok (missing "Missing database_id or fields"), w)
    else try_except (update_table_try notion db_id new_fields)
                    update_table_except w.
Proof.
  unfold update_table, mbind, M_bind, lift. simpl.
  by destruct (negb _ || negb _).
Qed.

Lemma get_rows_object (data : gmap string json) (w : world) :
  get_rows notion (Parsed (JDict data)) w
  = let db_id := default JNull (data !! "database_id") in
    if negb (truthy db_id)
    then (Ok (missing "Missing database_id"), w)
    else try_except (get_rows_try notion db_id) get_rows_except w.
Proof.
  unfold get_rows, mbind, M_bind, lift. simpl.
  by destruct (negb _).
Qed.

(** A [fields] or [values] that is not an object fails at [.items()]. *)
Lemma py_items_not_object (x : json) :
  (∀ m, x ≠ JDict m) → py_items x = Raise (AttributeError x "items").
Proof. intros H. destruct x; try done. by destruct (H m). Qed.

End Handlers.

Section Statuses.

Context {VS : Type}.
Variable notion : vendor_request → VS → result json * VS.
Variable PAGE_ID : json.

Lemma create_table_try_status (table_name fields : json) (w w' : world) resp :
  create_table_try notion PAGE_ID table_name fields w = (Ok resp, w') →
  status resp = 200.
Proof.
  unfold create_table_try, mbind, M_bind, lift, print, mret, M_ret.
  destruct (py_items fields) as [items|e]; [|discriminate].
  destruct (safe_notion_call_default _ w) as [[db|e] w1]; [|discriminate].
  destruct (py_getitem db "id") as [id|e]; [|discriminate].
  by intros [= <- _].
Qed.

Lemma insert_row_try_status (db_id values : json) (w w' : world) resp :
  insert_row_try notion db_id values w = (Ok resp, w') → status resp = 200.
Proof.
  unfold insert_row_try, mbind, M_bind, lift, print, mret, M_ret.
  destruct (py_items values) as [items|e]; [|discriminate].
  destruct (safe_notion_call_default _ w) as [[page|e] w1]; [|discriminate].
  destruct (py_getitem page "id") as [id|e]; [|discriminate].
  by intros [= <- _].
Qed.

Lemma update_table_try_status (db_id new_fields : json) (w w' : world) resp :
  update_table_try notion db_id new_fields w = (Ok resp, w') →
  status resp = 200.
Proof.
  unfold update_table_try, mbind, M_bind, lift, print, mret, M_ret.
  destruct (py_items new_fields) as [items|e]; [|discriminate].
  destruct (safe_notion_call_default _ w) as [[reply|e] w1]; [|discriminate].
  by intros [= <- _].
Qed.

Lemma get_rows_try_status (db_id : json) (w w' : world) resp :
  get_rows_try notion db_id w = (Ok resp, w') → status resp = 200.
Proof.
  rewrite get_rows_try_eq.
  destruct (safe_notion_call_default _ w) as [[response|e] w1]; [|discriminate].
  destruct (_ ← _; _) as [rows|e]; [|discriminate].
  by intros [= <- _].
Qed.

Lemma answered_missing (msg : string) : answered (Ok (missing msg)).
Proof. exists (missing msg). split; [done|]. right. by left. Qed.

Lemma answered_failed (e : exn) : answered (Ok (failed e)).
Proof. exists (failed e). split; [done|]. right. by right. Qed.

Lemma answered_ok (resp : response) : status resp = 200 → answered (Ok resp).
Proof. intros H. exists resp. split; [done|]. by left. Qed.

End Statuses.

(** X4. A body that parses to a JSON object never makes a handler raise:
    whatever its keys hold and whatever the vendor does, each of the four
    handlers returns a response, with status 200, 400 or 500. *)
Theorem handlers_answer_objects {VS : Type}
    (notion : vendor_request → VS → result json * VS) (PAGE_ID : json)
    (data : gmap string json) (w : world) :
  answered (create_table notion PAGE_ID (Parsed (JDict data)) w).1
  ∧ answered (insert_row notion (Parsed (JDict data)) w).1
  ∧ answered (update_table notion (Parsed (JDict data)) w).1
  ∧ answered (get_rows notion (Parsed (JDict data)) w).1.
Proof.
  rewrite create_table_object, insert_row_object, update_table_object,
    get_rows_object.
  cbv zeta. unfold try_except.
  repeat split.
  - destruct (negb _ || negb _); [apply answered_missing|].
    destruct (create_table_try _ _ _ _ w) as [[resp|e] w'] eqn:E; simpl.
    + eapply answered_ok, create_table_try_status, E.
    + apply answered_failed.
  - destruct (negb _ || negb _); [apply answered_missing|].
    destruct (insert_row_try _ _ _ w) as [[resp|e] w'] eqn:E; simpl.
    + eapply answered_ok, insert_row_try_status, E.
    + apply answered_failed.
  - destruct (negb _ || negb _); [apply answered_missing|].
    destruct (update_table_try _ _ _ w) as [[resp|e] w'] eqn:E; simpl.
    + eapply answered_ok, update_table_try_status, E.
    + apply answered_failed.
  - destruct (negb _); [apply answered_missing|].
    destruct (get_rows_try _ _ w) as [[resp|e] w'] eqn:E; simpl.
    + eapply answered_ok, get_rows_try_status, E.
    + apply answered_failed.
Qed.

(** X5. A body that parses to something other than an object is not
    validated at all: [insert_row], [update_table] and [get_rows] raise
    [AttributeError] on [.get] for null, an array, a string, a number or
    a boolean, and [create_table] does so for every such value that is
    truthy.  The exception leaves the handler; nothing is sent or
    printed. *)
Theorem non_object_body_raises {VS : Type}
    (notion : vendor_request → VS → result json * VS) (PAGE_ID j : json)
    (w : world) :
  (∀ m, j ≠ JDict m) →
  insert_row notion (Parsed j) w = (Raise (AttributeError j "get"), w)
  ∧ update_table notion (Parsed j) w = (Raise (AttributeError j "get"), w)
  ∧ get_rows notion (Parsed j) w = (Raise (AttributeError j "get"), w)
  ∧ (truthy j = true →
     create_table notion PAGE_ID (Parsed j) w
     = (Raise (AttributeError j "get"), w)).
Proof.
  intros Hj.
  assert (py_get j "database_id" = Raise (AttributeError j "get")) as Hget
    by (destruct j; try done; by destruct (Hj m)).
  assert (py_get j "table" = Raise (AttributeError j "get")) as Hget'
    by (destruct j; try done; by destruct (Hj m)).
  repeat split.
  - unfold insert_row, mbind, M_bind, lift. simpl. by rewrite Hget.
  - unfold update_table, mbind, M_bind, lift. simpl. by rewrite Hget.
  - unfold get_rows, mbind, M_bind, lift. simpl. by rewrite Hget.
  - intros Ht. unfold create_table, mbind, M_bind, lift, py_or. simpl.
    by rewrite Ht, Hget'.
Qed.

Lemma non_object_body_raises_witness :
  insert_row (flaky 0) (Parsed (JList [JInt 1])) (World 0%nat [])
  = (Raise (Exn "AttributeError" "'list' object has no attribute 'get'"),
     World 0%nat [])
  ∧ create_table (flaky 0) (JStr "page-1") (Parsed (JList [JInt 1]))
                 (World 0%nat [])
    = (Raise (Exn "AttributeError" "'list' object has no attribute 'get'"),
       World 0%nat []).
Proof.
  pose proof (non_object_body_raises (flaky 0) (JStr "page-1") (JList [JInt 1])
                (World 0%nat [])) as H.
  destruct H as (Hinsert & _ & _ & Hcreate); [discriminate|].
  split; [exact Hinsert|]. apply Hcreate. reflexivity.
Defined.

(** ** Vendor calls per request *)

Lemma within_budget_refl {VS} (w : @world VS) : within_budget w w.
Proof.
  exists []. rewrite app_nil_r. split; [done|].
  unfold calls, sleeps. simpl. lia.
Qed.

Lemma within_budget_print {VS} (w w' : @world VS) (text : string) (arg : json) :
  within_budget w w' → within_budget w (log (EvPrint text arg) w').
Proof.
  intros (added & Htr & Hc & Hs). exists (added ++ [EvPrint text arg]).
  unfold log. simpl. rewrite Htr, calls_app, sleeps_app, <- app_assoc.
  change (calls [EvPrint text arg]) with 0%nat.
  change (sleeps [EvPrint text arg]) with 0%nat.
  split; [done|]. lia.
Qed.

Lemma within_budget_safe {VS V} (func : VS → result V * VS) (w : @world VS) :
  within_budget w (safe_notion_call_default func w).2.
Proof.
  unfold safe_notion_call_default.
  destruct (safe_notion_call_trace func 1 2 w) as (n & Hn & Htr).
  exists (EvCall :: retried 2 n). split; [done|].
  change (EvCall :: retried 2 n) with ([EvCall] ++ retried 2 n).
  rewrite calls_app, sleeps_app, calls_retried, sleeps_retried.
  change (calls [EvCall]) with 1%nat. change (sleeps [EvCall]) with 0%nat.
  lia.
Qed.

Section Budget.

Context {VS : Type}.
Variable notion : vendor_request → VS → result json * VS.
Variable PAGE_ID : json.

Lemma create_table_try_budget (table_name fields : json) (w : world) :
  within_budget w (create_table_try notion PAGE_ID table_name fields w).2.
Proof.
  unfold create_table_try, mbind, M_bind, lift, print, mret, M_ret.
  destruct (py_items fields) as [items|e]; [|apply within_budget_refl].
  pose proof (within_budget_safe
                (create_db notion PAGE_ID table_name
                           (create_table_properties items)) w) as Hb.
  destruct (safe_notion_call_default _ w) as [[db|e] w1]; [|done].
  destruct (py_getitem db "id") as [id|e]; [|done].
  by apply within_budget_print.
Qed.

Lemma insert_row_try_budget (db_id values : json) (w : world) :
  within_budget w (insert_row_try notion db_id values w).2.
Proof.
  unfold insert_row_try, mbind, M_bind, lift, print, mret, M_ret.
  destruct (py_items values) as [items|e]; [|apply within_budget_refl].
  pose proof (within_budget_safe
                (insert_page notion db_id (insert_row_properties items)) w)
    as Hb.
  destruct (safe_notion_call_default _ w) as [[page|e] w1]; [|done].
  destruct (py_getitem page "id") as [id|e]; [|done].
  by apply within_budget_print.
Qed.

Lemma update_table_try_budget (db_id new_fields : json) (w : world) :
  within_budget w (update_table_try notion db_id new_fields w).2.
Proof.
  unfold update_table_try, mbind, M_bind, lift, print, mret, M_ret.
  destruct (py_items new_fields) as [items|e]; [|apply within_budget_refl].
  pose proof (within_budget_safe
                (update_db notion db_id (update_table_properties items)) w)
    as Hb.
  destruct (safe_notion_call_default _ w) as [[reply|e] w1]; [|done].
  by apply within_budget_print.
Qed.

Lemma get_rows_try_budget (db_id : json) (w : world) :
  within_budget w (get_rows_try notion db_id w).2.
Proof.
  rewrite get_rows_try_eq.
  pose proof (within_budget_safe (query_db notion db_id) w) as Hb.
  destruct (safe_notion_call_default _ w) as [[response|e] w1]; [|done].
  by destruct (_ ← _; _).
Qed.

(** A [try] block with an [except] block that stays within the budget. *)
Lemma try_except_budget (body : @M VS response)
    (handler : exn → @M VS response) (w : world) :
  within_budget w (body w).2 →
  (∀ e w1, within_budget w w1 → within_budget w (handler e w1).2) →
  within_budget w (try_except body handler w).2.
Proof.
  intros Hb Hh. unfold try_except.
  destruct (body w) as [[resp|e] w1]; [done|]. by apply Hh.
Qed.

Lemma except_budget (e : exn) (w w1 : @world VS) :
  within_budget w w1 →
  within_budget w (create_table_except e w1).2
  ∧ within_budget w (insert_row_except e w1).2
  ∧ within_budget w (update_table_except e w1).2
  ∧ within_budget w (get_rows_except e w1).2.
Proof.
  intros Hb.
  unfold create_table_except, insert_row_except, update_table_except,
    get_rows_except, mbind, M_bind, print, mret, M_ret. simpl.
  repeat split; by apply within_budget_print.
Qed.

End Budget.

(** X6. Whatever the body and whatever the vendor does, one request
    enters the vendor operation at most twice and sleeps at most once:
    each handler goes through [safe_notion_call] once, with its default
    [retries=1]. *)
Theorem handlers_within_budget {VS : Type}
    (notion : vendor_request → VS → result json * VS) (PAGE_ID : json)
    (b : request_body) (w : world) :
  within_budget w (create_table notion PAGE_ID b w).2
  ∧ within_budget w (insert_row notion b w).2
  ∧ within_budget w (update_table notion b w).2
  ∧ within_budget w (get_rows notion b w).2.
Proof.
  destruct b as [|j]; [repeat split; apply within_budget_refl|].
  repeat split.
  - unfold create_table, mbind, M_bind, lift. simpl.
    destruct (py_get (py_or j (JDict ∅)) "table") as [table_name|e];
      [|apply within_budget_refl].
    destruct (py_get (py_or j (JDict ∅)) "fields") as [fields|e];
      [|apply within_budget_refl].
    destruct (negb _ || negb _); [apply within_budget_refl|].
    apply try_except_budget; [apply create_table_try_budget|].
    intros e w1 Hb. by apply except_budget.
  - unfold insert_row, mbind, M_bind, lift. simpl.
    destruct (py_get j "database_id") as [db_id|e]; [|apply within_budget_refl].
    destruct (py_get j "values") as [values|e]; [|apply within_budget_refl].
    destruct (negb _ || negb _); [apply within_budget_refl|].
    apply try_except_budget; [apply insert_row_try_budget|].
    intros e w1 Hb. by apply except_budget.
  - unfold update_table, mbind, M_bind, lift. simpl.
    destruct (py_get j "database_id") as [db_id|e]; [|apply within_budget_refl].
    destruct (py_get j "fields") as [fields|e]; [|apply within_budget_refl].
    destruct (negb _ || negb _); [apply within_budget_refl|].
    apply try_except_budget; [apply update_table_try_budget|].
    intros e w1 Hb. by apply except_budget.
  - unfold get_rows, mbind, M_bind, lift. simpl.
    destruct (py_get j "database_id") as [db_id|e]; [|apply within_budget_refl].
    destruct (negb _); [apply within_budget_refl|].
    apply try_except_budget; [apply get_rows_try_budget|].
    intros e w1 Hb. by apply except_budget.
Qed.

(** ** Requests that pass validation *)

Lemma safe_notion_call_once {VS V} (func : VS → result V * VS) (w : world)
    (v : V) (s1 : VS) :
  func (vendor w) = (Ok v, s1) →
  safe_notion_call_default func w = (Ok v, World s1 (trace w ++ [EvCall])).
Proof.
  intros H. unfold safe_notion_call_default.
  by rewrite safe_notion_call_eq, (invoke_eq _ _ _ _ H).
Qed.

Lemma truthy_dict_non_empty (m : gmap string json) :
  m ≠ ∅ → truthy (JDict m) = true.
Proof. intros H. simpl. by rewrite bool_decide_eq_false_2. Qed.

Lemma has_key_update_field (ftype : json) :
  has_key "title" (update_field ftype) = py_eq_str ftype "title".
Proof.
  unfold update_field.
  destruct (py_eq_str ftype "title"); [reflexivity|].
  destruct (py_eq_str ftype "rich_text"); [reflexivity|].
  destruct (py_eq_str ftype "select"); reflexivity.
Qed.

Lemma title_fields_update (fields : gmap string json) :
  title_fields (update_field <$> fields) = update_field <$> declared_title fields.
Proof.
  unfold title_fields, declared_title. rewrite map_filter_fmap. f_equal.
  apply map_filter_ext. intros i x _. simpl. by rewrite has_key_update_field.
Qed.

Section Valid.

Context {VS : Type}.
Variable notion : vendor_request → VS → result json * VS.
Variable PAGE_ID : json.

Lemma insert_row_valid (data : gmap string json) (db_id values : json)
    (w : world) :
  data !! "database_id" = Some db_id → truthy db_id = true →
  data !! "values" = Some values → truthy values = true →
  insert_row notion (Parsed (JDict data)) w
  = try_except (insert_row_try notion db_id values) insert_row_except w.
Proof.
  intros Hid Htid Hvalues Htv. rewrite insert_row_object. cbv zeta.
  rewrite Hid, Hvalues. simpl. by rewrite Htid, Htv.
Qed.

Lemma update_table_valid (data : gmap string json) (db_id new_fields : json)
    (w : world) :
  data !! "database_id" = Some db_id → truthy db_id = true →
  data !! "fields" = Some new_fields → truthy new_fields = true →
  update_table notion (Parsed (JDict data)) w
  = try_except (update_table_try notion db_id new_fields)
               update_table_except w.
Proof.
  intros Hid Htid Hfields Htf. rewrite update_table_object. cbv zeta.
  rewrite Hid, Hfields. simpl. by rewrite Htid, Htf.
Qed.

Lemma get_rows_valid (data : gmap string json) (db_id : json) (w : world) :
  data !! "database_id" = Some db_id → truthy db_id = true →
  get_rows notion (Parsed (JDict data)) w
  = try_except (get_rows_try notion db_id) get_rows_except w.
Proof.
  intros Hid Htid. rewrite get_rows_object. cbv zeta.
  rewrite Hid. simpl. by rewrite Htid.
Qed.

End Valid.

(** X7. A [fields] or [values] that is truthy but not an object (a
    string, a number, an array) passes validation and fails at
    [.items()]: the handler answers 500 with the [AttributeError] message
    and prints it, and the vendor is not called. *)
Theorem non_object_fields_fail_before_vendor {VS : Type}
    (notion : vendor_request → VS → result json * VS) (PAGE_ID x : json)
    (data : gmap string json) (w : world) :
  (∀ m, x ≠ JDict m) → truthy x = true →
  let msg := JStr ("'" +:+ type_name x +:+ "' object has no attribute 'items'") in
  (∀ table_name,
     data !! "table" = Some table_name → truthy table_name = true →
     data !! "fields" = Some x →
     create_table notion PAGE_ID (Parsed (JDict data)) w
     = (Ok (Response 500 (dict1 "error" msg)),
        World (vendor w) (trace w ++ [EvPrint "Create error: " msg])))
  ∧ (∀ db_id,
       data !! "database_id" = Some db_id → truthy db_id = true →
       data !! "values" = Some x →
       insert_row notion (Parsed (JDict data)) w
       = (Ok (Response 500 (dict1 "error" msg)),
          World (vendor w) (trace w ++ [EvPrint "Insert error: " msg])))
  ∧ (∀ db_id,
       data !! "database_id" = Some db_id → truthy db_id = true →
       data !! "fields" = Some x →
       update_table notion (Parsed (JDict data)) w
       = (Ok (Response 500 (dict1 "error" msg)),
          World (vendor w) (trace w ++ [EvPrint "Update error: " msg]))).
Proof.
  intros Hx Htx msg. apply py_items_not_object in Hx.
  split; [|split].
  - intros table_name Htable Htn Hfields.
    rewrite (create_table_valid _ _ _ _ _ _ Htable Htn Hfields Htx).
    unfold try_except, create_table_try, mbind, M_bind, lift.
    by rewrite Hx.
  - intros db_id Hid Htid Hvalues.
    rewrite (insert_row_valid _ _ _ _ _ Hid Htid Hvalues Htx).
    unfold try_except, insert_row_try, mbind, M_bind, lift.
    by rewrite Hx.
  - intros db_id Hid Htid Hfields.
    rewrite (update_table_valid _ _ _ _ _ Hid Htid Hfields Htx).
    unfold try_except, update_table_try, mbind, M_bind, lift.
    by rewrite Hx.
Qed.

Lemma non_object_fields_fail_before_vendor_witness :
  create_table (flaky 0) (JStr "page-1")
    (Parsed (JDict (<[ "fields" := JStr "title" ]> {[ "table" := JStr "Trees" ]})))
    (World 0%nat [])
  = (Ok (Response 500
           (dict1 "error" (JStr "'str' object has no attribute 'items'"))),
     World 0%nat
       [EvPrint "Create error: " (JStr "'str' object has no attribute 'items'")]).
Proof.
  assert (∀ m, JStr "title" ≠ JDict m) as Hx by discriminate.
  apply (proj1 (non_object_fields_fail_before_vendor (flaky 0) (JStr "page-1")
                  (JStr "title")
                  (<[ "fields" := JStr "title" ]> {[ "table" := JStr "Trees" ]})
                  (World 0%nat []) Hx eq_refl) (JStr "Trees")).
  - vm_compute. reflexivity.
  - reflexivity.
  - vm_compute. reflexivity.
Defined.

(** X8. For a record that passes validation, every request [insert_row]
    sends is [pages.create] under the given database with one property
    per value, under the value's own name and encoded by that name; no
    property is added and none is dropped. *)
Theorem insert_row_sends_encoded_values {VS : Type}
    (notion : vendor_request → VS → result json * VS) (db_id : json)
    (data values : gmap string json) (w : @world (VS * list vendor_request)) :
  data !! "database_id" = Some db_id → truthy db_id = true →
  data !! "values" = Some (JDict values) → values ≠ ∅ →
  ∃ (n : nat) (properties : gmap string json),
    (1 ≤ n ≤ 2)%nat
    ∧ sent (insert_row (recording notion) (Parsed (JDict data)) w).2
      = sent w
        ++ replicate n (PagesCreate (dict1 "database_id" db_id)
                                    (JDict properties))
    ∧ dom properties = dom values
    ∧ (∀ k v, values !! k = Some v → properties !! k = Some (encodeValue k v)).
Proof.
  intros Hid Htid Hvalues Hne.
  rewrite (insert_row_valid _ _ _ _ _ Hid Htid Hvalues
             (truthy_dict_non_empty _ Hne)).
  unfold try_except. rewrite insert_row_try_eq.
  unfold safe_notion_call_default, insert_page.
  destruct (safe_notion_call_sent notion
              (PagesCreate (dict1 "database_id" db_id)
                           (JDict (insert_row_properties values))) 1 2 w)
    as (n & Hn & Hsent).
  exists (S n), (insert_row_properties values).
  split; [lia|]. split; [|split].
  - rewrite <- Hsent.
    destruct (safe_notion_call _ 1 2 w) as [[page|e] w1]; simpl.
    + destruct (py_getitem page "id"); reflexivity.
    + reflexivity.
  - apply set_eq. intros k.
    by rewrite !elem_of_dom, insert_row_properties_lookup, fmap_is_Some.
  - intros k v Hk. by rewrite insert_row_properties_lookup, Hk.
Qed.

Lemma insert_row_sends_encoded_values_witness :
  ∃ (n : nat) (properties : gmap string json),
    (1 ≤ n ≤ 2)%nat
    ∧ sent (insert_row (recording (flaky 1)) (Parsed (JDict sample_insert))
                       (World (0%nat, []) [])).2
      = sent (World (0%nat, []) [])
        ++ replicate n (PagesCreate (dict1 "database_id" (JStr "db-1"))
                                    (JDict properties))
    ∧ dom properties = dom (<[ "Tree" := JStr "Oak" ]> {[ "Notes" := JStr "x" ]}
                             : gmap string json)
    ∧ (∀ k v,
         (<[ "Tree" := JStr "Oak" ]> {[ "Notes" := JStr "x" ]}
            : gmap string json) !! k = Some v →
         properties !! k = Some (encodeValue k v)).
Proof.
  apply (insert_row_sends_encoded_values (flaky 1) (JStr "db-1") sample_insert
           (<[ "Tree" := JStr "Oak" ]> {[ "Notes" := JStr "x" ]})
           (World (0%nat, []) [])).
  - vm_compute. reflexivity.
  - reflexivity.
  - vm_compute. reflexivity.
  - apply insert_non_empty.
Defined.

(** X9. In [insert_row], [update_table] and [get_rows], as in
    [create_table], a vendor call that fails twice in a row is answered
    with 500 and [str] of the second failure, after two calls and one
    sleep of two seconds; the first failure is not reported. *)
Theorem handlers_report_second_failure {VS : Type}
    (notion : vendor_request → VS → result json * VS)
    (data : gmap string json) (db_id : json) (w : world)
    (e1 e2 : exn) (s1 s2 : VS) :
  data !! "database_id" = Some db_id → truthy db_id = true →
  let tr := trace w ++ [EvCall; EvSleep 2; EvCall] in
  let answer := Response 500 (dict1 "error" (JStr (exn_str e2))) in
  (∀ values : gmap string json,
     data !! "values" = Some (JDict values) → values ≠ ∅ →
     let func := insert_page notion db_id (insert_row_properties values) in
     func (vendor w) = (Raise e1, s1) → func s1 = (Raise e2, s2) →
     insert_row notion (Parsed (JDict data)) w
     = (Ok answer,
        World s2 (tr ++ [EvPrint "Insert error: " (JStr (exn_str e2))])))
  ∧ (∀ fields : gmap string json,
       data !! "fields" = Some (JDict fields) → fields ≠ ∅ →
       let func := update_db notion db_id (update_table_properties fields) in
       func (vendor w) = (Raise e1, s1) → func s1 = (Raise e2, s2) →
       update_table notion (Parsed (JDict data)) w
       = (Ok answer,
          World s2 (tr ++ [EvPrint "Update error: " (JStr (exn_str e2))])))
  ∧ (query_db notion db_id (vendor w) = (Raise e1, s1) →
     query_db notion db_id s1 = (Raise e2, s2) →
     get_rows notion (Parsed (JDict data)) w
     = (Ok answer,
        World s2 (tr ++ [EvPrint "GET error: " (JStr (exn_str e2))]))).
Proof.
  intros Hid Htid tr answer. subst tr answer. split; [|split].
  - intros values Hvalues Hne func H1 H2. subst func.
    rewrite (insert_row_valid _ _ _ _ _ Hid Htid Hvalues
               (truthy_dict_non_empty _ Hne)).
    unfold try_except. rewrite insert_row_try_eq.
    rewrite (safe_notion_call_twice _ w e1 s1 _ s2 H1 H2).
    unfold insert_row_except, mbind, M_bind, print, log, failed. simpl.
    by rewrite <- !app_assoc.
  - intros fields Hfields Hne func H1 H2. subst func.
    rewrite (update_table_valid _ _ _ _ _ Hid Htid Hfields
               (truthy_dict_non_empty _ Hne)).
    unfold try_except. rewrite update_table_try_eq.
    rewrite (safe_notion_call_twice _ w e1 s1 _ s2 H1 H2).
    unfold update_table_except, mbind, M_bind, print, log, failed. simpl.
    by rewrite <- !app_assoc.
  - intros H1 H2.
    rewrite (get_rows_valid _ _ _ _ Hid Htid).
    unfold try_except. rewrite get_rows_try_eq.
    rewrite (safe_notion_call_twice _ w e1 s1 _ s2 H1 H2).
    unfold get_rows_except, mbind, M_bind, print, log, failed. simpl.
    by rewrite <- !app_assoc.
Qed.

Lemma handlers_report_second_failure_witness :
  get_rows (flaky 2) (Parsed (JDict {[ "database_id" := JStr "db-1" ]}))
           (World 0%nat [])
  = (Ok (Response 500 (dict1 "error" (JStr "attempt 1"))),
     World 2%nat (([] ++ [EvCall; EvSleep 2; EvCall])
                  ++ [EvPrint "GET error: " (JStr "attempt 1")])).
Proof.
  assert (({[ "database_id" := JStr "db-1" ]} : gmap string json)
            !! "database_id" = Some (JStr "db-1")) as Hid
    by (vm_compute; reflexivity).
  apply (proj2 (proj2 (handlers_report_second_failure (flaky 2)
                         {[ "database_id" := JStr "db-1" ]} (JStr "db-1")
                         (World 0%nat [])
                         (Exn "ConnectionError" "attempt 0")
                         (Exn "ConnectionError" "attempt 1")
                         1%nat 2%nat Hid eq_refl))); reflexivity.
Defined.

(** X10. [update_table] does not read the vendor's reply: once the call
    has returned, whatever it returned, the answer is 200 with the
    message "Updated" and the [database_id] of the request. *)
Theorem update_table_ignores_reply {VS : Type}
    (notion : vendor_request → VS → result json * VS)
    (data fields : gmap string json) (db_id reply : json) (w : world) (s1 : VS) :
  data !! "database_id" = Some db_id → truthy db_id = true →
  data !! "fields" = Some (JDict fields) → fields ≠ ∅ →
  update_db notion db_id (update_field <$> fields) (vendor w) = (Ok reply, s1) →
  update_table notion (Parsed (JDict data)) w
  = (Ok (Response 200 (dict2 "message" (JStr "Updated") "database_id" db_id)),
     World s1 (trace w ++ [EvCall; EvPrint "Updated database: " db_id])).
Proof.
  intros Hid Htid Hfields Hne Hcall.
  rewrite (update_table_valid _ _ _ _ _ Hid Htid Hfields
             (truthy_dict_non_empty _ Hne)).
  unfold try_except. rewrite update_table_try_eq.
  unfold update_table_properties. rewrite assign_fields_fmap.
  rewrite (safe_notion_call_once _ w reply s1 Hcall).
  unfold log. simpl. by rewrite <- app_assoc.
Qed.

Lemma update_table_ignores_reply_witness :
  update_table (answering JNull)
    (Parsed (JDict (<[ "fields" := JDict {[ "Status" := JStr "select" ]} ]>
                      {[ "database_id" := JStr "db-1" ]})))
    (World () [])
  = (Ok (Response 200 (dict2 "message" (JStr "Updated")
                             "database_id" (JStr "db-1"))),
     World () ([] ++ [EvCall; EvPrint "Updated database: " (JStr "db-1")])).
Proof.
  apply (update_table_ignores_reply (answering JNull)
           (<[ "fields" := JDict {[ "Status" := JStr "select" ]} ]>
              {[ "database_id" := JStr "db-1" ]})
           {[ "Status" := JStr "select" ]} (JStr "db-1") JNull (World () []) ()).
  - vm_compute. reflexivity.
  - reflexivity.
  - vm_compute. reflexivity.
  - apply map_non_empty_singleton.
  - reflexivity.
Defined.

(** X11. [create_table] and [insert_row] read [id] from the vendor's
    reply inside the [try] block: a call that succeeds with a reply
    holding an [id] is answered 200 with that [id], and a call that
    succeeds with a reply that cannot give one is answered 500 with the
    lookup error, although the vendor accepted the request. *)
Theorem created_id_is_read_from_reply {VS : Type}
    (notion : vendor_request → VS → result json * VS) (PAGE_ID : json)
    (data : gmap string json) (reply : json) (w : world) (s1 : VS) :
  (∀ table_name (fields : gmap string json),
     data !! "table" = Some table_name → truthy table_name = true →
     data !! "fields" = Some (JDict fields) → fields ≠ ∅ →
     create_db notion PAGE_ID table_name (create_table_properties fields)
               (vendor w) = (Ok reply, s1) →
     (∀ id, py_getitem reply "id" = Ok id →
        create_table notion PAGE_ID (Parsed (JDict data)) w
        = (Ok (Response 200 (dict2 "message" (JStr "OK") "database_id" id)),
           World s1 (trace w ++ [EvCall; EvPrint "Database created: " id])))
     ∧ (∀ e, py_getitem reply "id" = Raise e →
        create_table notion PAGE_ID (Parsed (JDict data)) w
        = (Ok (Response 500 (dict1 "error" (JStr (exn_str e)))),
           World s1 (trace w ++ [EvCall;
                                 EvPrint "Create error: " (JStr (exn_str e))]))))
  ∧ (∀ db_id (values : gmap string json),
       data !! "database_id" = Some db_id → truthy db_id = true →
       data !! "values" = Some (JDict values) → values ≠ ∅ →
       insert_page notion db_id (insert_row_properties values) (vendor w)
       = (Ok reply, s1) →
       (∀ id, py_getitem reply "id" = Ok id →
          insert_row notion (Parsed (JDict data)) w
          = (Ok (Response 200 (dict2 "message" (JStr "OK") "page_id" id)),
             World s1 (trace w ++ [EvCall; EvPrint "Page created: " id])))
       ∧ (∀ e, py_getitem reply "id" = Raise e →
          insert_row notion (Parsed (JDict data)) w
          = (Ok (Response 500 (dict1 "error" (JStr (exn_str e)))),
             World s1 (trace w ++ [EvCall;
                                   EvPrint "Insert error: " (JStr (exn_str e))])))).
Proof.
  split.
  - intros table_name fields Htable Htn Hfields Hne Hcall.
    rewrite (create_table_valid _ _ _ _ _ _ Htable Htn Hfields
               (truthy_dict_non_empty _ Hne)).
    unfold try_except. rewrite create_table_try_eq.
    rewrite (safe_notion_call_once _ w reply s1 Hcall).
    split; [intros id Hget|intros e Hget]; rewrite Hget;
      unfold create_table_except, mbind, M_bind, print, log, failed; simpl;
      by rewrite <- app_assoc.
  - intros db_id values Hid Htid Hvalues Hne Hcall.
    rewrite (insert_row_valid _ _ _ _ _ Hid Htid Hvalues
               (truthy_dict_non_empty _ Hne)).
    unfold try_except. rewrite insert_row_try_eq.
    rewrite (safe_notion_call_once _ w reply s1 Hcall).
    split; [intros id Hget|intros e Hget]; rewrite Hget;
      unfold insert_row_except, mbind, M_bind, print, log, failed; simpl;
      by rewrite <- app_assoc.
Qed.

Lemma created_id_is_read_from_reply_witness :
  insert_row (answering (dict1 "object" (JStr "page")))
             (Parsed (JDict sample_insert)) (World () [])
  = (Ok (Response 500 (dict1 "error" (JStr "'id'"))),
     World () ([] ++ [EvCall; EvPrint "Insert error: " (JStr "'id'")])).
Proof.
  apply (proj2 (proj2 (created_id_is_read_from_reply
                         (answering (dict1 "object" (JStr "page"))) JNull
                         sample_insert (dict1 "object" (JStr "page"))
                         (World () []) ())
                  (JStr "db-1")
                  (<[ "Tree" := JStr "Oak" ]> {[ "Notes" := JStr "x" ]})
                  ltac:(vm_compute; reflexivity) eq_refl
                  ltac:(vm_compute; reflexivity)
                  (insert_non_empty _ _ _) eq_refl)
           (KeyError "id")).
  vm_compute. reflexivity.
Defined.

(** ** Schemas: what is and is not synthesized *)

(** X12. [update_table] has no post-pass: every request it sends is
    [databases.update] with exactly the declared names, each with its
    fragment, and its fields of title kind are the ones declared
    "title"; a "Name" field appears only if the request declares one. *)
Theorem update_table_sends_declared_only {VS : Type}
    (notion : vendor_request → VS → result json * VS) (db_id : json)
    (data fields : gmap string json) (w : @world (VS * list vendor_request)) :
  data !! "database_id" = Some db_id → truthy db_id = true →
  data !! "fields" = Some (JDict fields) → fields ≠ ∅ →
  ∃ (n : nat) (properties : gmap string json),
    (1 ≤ n ≤ 2)%nat
    ∧ sent (update_table (recording notion) (Parsed (JDict data)) w).2
      = sent w ++ replicate n (DatabasesUpdate db_id (JDict properties))
    ∧ dom properties = dom fields
    ∧ (∀ name ftype, fields !! name = Some ftype →
         properties !! name = Some (update_field ftype))
    ∧ title_fields properties = update_field <$> declared_title fields.
Proof.
  intros Hid Htid Hfields Hne.
  rewrite (update_table_valid _ _ _ _ _ Hid Htid Hfields
             (truthy_dict_non_empty _ Hne)).
  unfold try_except. rewrite update_table_try_eq.
  unfold safe_notion_call_default, update_db, update_table_properties.
  rewrite assign_fields_fmap.
  destruct (safe_notion_call_sent notion
              (DatabasesUpdate db_id (JDict (update_field <$> fields))) 1 2 w)
    as (n & Hn & Hsent).
  exists (S n), (update_field <$> fields).
  split; [lia|]. split; [|split; [|split]].
  - rewrite <- Hsent.
    by destruct (safe_notion_call _ 1 2 w) as [[reply|e] w1].
  - apply dom_fmap_L.
  - intros name ftype Hname. by rewrite lookup_fmap, Hname.
  - apply title_fields_update.
Qed.

Lemma update_table_sends_declared_only_witness :
  ∃ (n : nat) (properties : gmap string json),
    (1 ≤ n ≤ 2)%nat
    ∧ sent (update_table (recording (flaky 0))
              (Parsed (JDict (<[ "fields" := JDict sample_fields ]>
                                {[ "database_id" := JStr "db-1" ]})))
              (World (0%nat, []) [])).2
      = sent (World (0%nat, []) [])
        ++ replicate n (DatabasesUpdate (JStr "db-1") (JDict properties))
    ∧ dom properties = dom sample_fields
    ∧ (∀ name ftype, sample_fields !! name = Some ftype →
         properties !! name = Some (update_field ftype))
    ∧ title_fields properties = update_field <$> declared_title sample_fields.
Proof.
  apply (update_table_sends_declared_only (flaky 0) (JStr "db-1")
           (<[ "fields" := JDict sample_fields ]>
              {[ "database_id" := JStr "db-1" ]})
           sample_fields (World (0%nat, []) [])).
  - vm_compute. reflexivity.
  - reflexivity.
  - vm_compute. reflexivity.
  - apply insert_non_empty.
Defined.

(** X13. When the request declares at least one field "title",
    [create_table] synthesizes nothing: the schema sent has exactly the
    declared names, each with its own fragment, so a declared "Name"
    keeps its declared kind. *)
Theorem declared_title_stops_synthesis {VS : Type}
    (notion : vendor_request → VS → result json * VS) (PAGE_ID table_name : json)
    (data fields : gmap string json) (w : @world (VS * list vendor_request))
    (title_name : string) :
  data !! "table" = Some table_name → truthy table_name = true →
  data !! "fields" = Some (JDict fields) →
  fields !! title_name = Some (JStr "title") →
  ∃ (n : nat) (properties : gmap string json),
    (1 ≤ n ≤ 2)%nat
    ∧ sent (create_table (recording notion) PAGE_ID (Parsed (JDict data)) w).2
      = sent w
        ++ replicate n
             (DatabasesCreate
                (dict2 "type" (JStr "page_id") "page_id" PAGE_ID)
                (JList [dict2 "type" (JStr "text")
                              "text" (dict1 "content" table_name)])
                (JDict properties))
    ∧ dom properties = dom fields
    ∧ (∀ name ftype, fields !! name = Some ftype →
         properties !! name = Some (create_field ftype)).
Proof.
  intros Htable Htn Hfields Htitle.
  assert (fields ≠ ∅) as Hne
    by (intros ->; by rewrite lookup_empty in Htitle).
  destruct (create_table_sent notion PAGE_ID table_name data fields w
              Htable Htn Hfields Hne) as (n & Hn & Hsent).
  exists n, (create_table_properties fields).
  assert (declared_title fields ≠ ∅) as Hdeclared.
  { intros Hnone. rewrite declared_title_empty in Hnone.
    by apply (Hnone title_name (JStr "title")). }
  split; [done|]. split; [done|].
  rewrite create_table_properties_some by done. split.
  - apply dom_fmap_L.
  - intros name ftype Hname. by rewrite lookup_fmap, Hname.
Qed.

Lemma declared_title_stops_synthesis_witness :
  let fields : gmap string json :=
    <[ "Name" := JStr "select" ]> {[ "Tree" := JStr "title" ]} in
  ∃ (n : nat) (properties : gmap string json),
    (1 ≤ n ≤ 2)%nat
    ∧ sent (create_table (recording (flaky 0)) (JStr "page-1")
              (Parsed (JDict (<[ "fields" := JDict fields ]>
                                {[ "table" := JStr "Trees" ]})))
              (World (0%nat, []) [])).2
      = sent (World (0%nat, []) [])
        ++ replicate n
             (DatabasesCreate
                (dict2 "type" (JStr "page_id") "page_id" (JStr "page-1"))
                (JList [dict2 "type" (JStr "text")
                              "text" (dict1 "content" (JStr "Trees"))])
                (JDict properties))
    ∧ dom properties = dom fields
    ∧ (∀ name ftype, fields !! name = Some ftype →
         properties !! name = Some (create_field ftype)).
Proof.
  apply (declared_title_stops_synthesis (flaky 0) (JStr "page-1") (JStr "Trees")
           (<[ "fields" := JDict (<[ "Name" := JStr "select" ]>
                                    {[ "Tree" := JStr "title" ]}) ]>
              {[ "table" := JStr "Trees" ]})
           (<[ "Name" := JStr "select" ]> {[ "Tree" := JStr "title" ]})
           (World (0%nat, []) []) "Tree").
  - vm_compute. reflexivity.
  - reflexivity.
  - vm_compute. reflexivity.
  - vm_compute. reflexivity.
Defined.

(** ** Listing rows *)


Lemma decode_results_raise (results : list json) :
  (∃ (m props : gmap string json) key value,
     JDict m ∈ results
     ∧ m !! "properties" = Some (JDict props)
     ∧ props !! key = Some value
     ∧ decoded value = None) →
  ∃ e, decode_results results = Raise e.
Proof.
  intros (m & props & key & value & Hin & Hprops & Hkey & Hnone).
  induction results as [|result results IH]; [by apply elem_of_nil in Hin|].
  simpl. unfold mbind, result_bind.
  apply elem_of_cons in Hin as [<-|Hin].
  - simpl. rewrite Hprops. simpl.
    destruct (decodeRow_raise props) as [e He]; [by exists key, value|].
    rewrite He. by exists e.
  - destruct (IH Hin) as [e He]. rewrite He.
    destruct (py_get_default result "properties" (JDict ∅)) as [p|e1];
      [|by exists e1].
    destruct (py_items p) as [items|e2]; [|by exists e2].
    destruct (decodeRow items) as [row|e3]; [by exists e|by exists e3].
Qed.


Lemma sample_props_row : map_Forall2 (λ _, decodes_to) sample_props sample_row.
Proof.
  intros key. unfold sample_props, sample_row.
  destruct (decide (key = "Done")) as [->|HD].
  { rewrite !lookup_insert_eq. constructor.
    apply (decodes_other _ (JStr "checkbox")); [vm_compute; reflexivity|discriminate..]. }
  rewrite !(lookup_insert_ne _ "Done") by done.
  destruct (decide (key = "Status")) as [->|HS].
  { rewrite !lookup_insert_eq. constructor.
    apply decodes_select_unset; vm_compute; reflexivity. }
  rewrite !(lookup_insert_ne _ "Status") by done.
  destruct (decide (key = "Tree")) as [->|HT].
  { rewrite !lookup_singleton_eq. constructor.
    apply (decodes_title _ []); [vm_compute; reflexivity..|constructor]. }
  rewrite !lookup_singleton_ne by done. constructor.
Defined.


(** X15. The listing is all or nothing: if one property of one result
    does not decode, [get_rows] answers 500 with an error message and
    returns no row at all, however many results decode. *)
Theorem get_rows_all_or_nothing {VS : Type}
    (notion : vendor_request → VS → result json * VS)
    (data reply m props : gmap string json) (db_id : json) (w : world) (s1 : VS)
    (results : list json) (key : string) (value : json) (e0 : exn) :
  data !! "database_id" = Some db_id → truthy db_id = true →
  query_db notion db_id (vendor w) = (Ok (JDict reply), s1) →
  reply !! "results" = Some (JList results) →
  JDict m ∈ results →
  m !! "properties" = Some (JDict props) →
  props !! key = Some value →
  decode_value value = Raise e0 →
  ∃ e,
    get_rows notion (Parsed (JDict data)) w
    = (Ok (Response 500 (dict1 "error" (JStr (exn_str e)))),
       World s1 (trace w ++ [EvCall; EvPrint "GET error: " (JStr (exn_str e))])).
Proof.
  intros Hid Htid Hcall Hresults Hin Hprops Hkey Hvalue.
  destruct (decode_results_raise results) as [e He].
  { exists m, props, key, value. repeat split; try done.
    unfold decoded. by rewrite Hvalue. }
  exists e.
  rewrite (get_rows_valid _ _ _ _ Hid Htid).
  unfold try_except. rewrite get_rows_try_eq.
  rewrite (safe_notion_call_once _ w _ s1 Hcall).
  unfold mbind at 1 2. unfold result_bind. simpl. rewrite Hresults. simpl.
  rewrite He.
  unfold get_rows_except, mbind, M_bind, print, log, failed. simpl.
  by rewrite <- app_assoc.
Qed.

Lemma get_rows_all_or_nothing_witness :
  ∃ e,
    get_rows (answering (JDict sample_bad_reply))
             (Parsed (JDict {[ "database_id" := JStr "db-1" ]})) (World () [])
    = (Ok (Response 500 (dict1 "error" (JStr (exn_str e)))),
       World () ([] ++ [EvCall; EvPrint "GET error: " (JStr (exn_str e))])).
Proof.
  assert (({[ "database_id" := JStr "db-1" ]} : gmap string json)
            !! "database_id" = Some (JStr "db-1")) as Hid
    by (vm_compute; reflexivity).
  apply (get_rows_all_or_nothing (answering (JDict sample_bad_reply))
           {[ "database_id" := JStr "db-1" ]} sample_bad_reply
           {[ "properties" := JDict {[ "Tree" := mention_title ]} ]}
           {[ "Tree" := mention_title ]} (JStr "db-1") (World () []) ()
           [dict1 "properties" (JDict sample_props);
            dict1 "properties" (JDict {[ "Tree" := mention_title ]})]
           "Tree" mention_title (KeyError "text") Hid eq_refl eq_refl).
  - vm_compute. reflexivity.
  - apply elem_of_cons. right. apply elem_of_cons. by left.
  - apply lookup_singleton_eq.
  - apply lookup_singleton_eq.
  - vm_compute. reflexivity.
Defined.

(** ** What the decoder reads *)

Lemma py_getitem_insert_ne (m : gmap string json) (k k' : string) (v : json) :
  k ≠ k' → py_getitem (JDict (<[ k := v ]> m)) k' = py_getitem (JDict m) k'.
Proof. intros H. unfold py_getitem. by rewrite lookup_insert_ne. Qed.

(** X16. The decoder reads [type] and the sub-field of the same name and
    nothing else: adding or changing any other key of a property value
    (an [id], say) leaves what it decodes to, or what it raises, as it
    was. *)
Theorem decode_value_ignores_other_keys (m : gmap string json) (k : string)
    (v : json) :
  k ∉ ["type"; "title"; "rich_text"; "select"] →
  decode_value (JDict (<[ k := v ]> m)) = decode_value (JDict m).
Proof.
  intros Hk.
  assert (k ≠ "type" ∧ k ≠ "title" ∧ k ≠ "rich_text" ∧ k ≠ "select")
    as (H1 & H2 & H3 & H4).
  { repeat split; intros ->; apply Hk; set_solver. }
  unfold decode_value. by rewrite !py_getitem_insert_ne.
Qed.

Lemma decode_value_ignores_other_keys_witness :
  decode_value (JDict (<[ "id" := JStr "abc" ]>
                         (<[ "title" := JList [text_run (JStr "Oak")] ]>
                            {[ "type" := JStr "title" ]})))
  = decode_value (JDict (<[ "title" := JList [text_run (JStr "Oak")] ]>
                           {[ "type" := JStr "title" ]})).
Proof.
  apply (decode_value_ignores_other_keys _ "id" (JStr "abc")).
  intros H. repeat (apply elem_of_cons in H as [H|H]; [discriminate H|]).
  by apply elem_of_nil in H.
Defined.

(** X17. Only the first run of a title or rich-text value is read: the
    runs after it never change the result, so text split over several
    runs is listed cut after its first run. *)
Theorem decode_value_first_run_only (m : gmap string json) (kind : string)
    (run : json) (rest : list json) :
  kind = "title" ∨ kind = "rich_text" →
  m !! "type" = Some (JStr kind) →
  m !! kind = Some (JList (run :: rest)) →
  decode_value (JDict m) = (x ← py_getitem run "text"; py_getitem x "content")
  ∧ decode_value (JDict m)
    = decode_value (JDict (<[ kind := JList [run] ]> m)).
Proof.
  intros Hkind Hty Hsub.
  assert (∀ l, (<[ kind := JList (run :: l) ]> m) !! "type" = Some (JStr kind))
    as Hty'.
  { intros l. rewrite lookup_insert_ne; [done|]. by destruct Hkind as [->| ->]. }
  assert (∀ (m' : gmap string json) l,
            m' !! "type" = Some (JStr kind) →
            m' !! kind = Some (JList (run :: l)) →
            decode_value (JDict m')
            = (x ← py_getitem run "text"; py_getitem x "content")) as Hread.
  { intros m' l Ht Hs. unfold decode_value, mbind, result_bind. simpl.
    rewrite Ht. by destruct Hkind as [->| ->]; simpl; rewrite Hs. }
  split.
  - by apply (Hread m rest).
  - rewrite (Hread m rest), (Hread (<[ kind := JList [run] ]> m) []);
      [done|apply Hty'|apply lookup_insert_eq|done|done].
Qed.

Lemma decode_value_first_run_only_witness :
  let m : gmap string json :=
    <[ "rich_text" := JList [text_run (JStr "Oak "); text_run (JStr "tree")] ]>
      {[ "type" := JStr "rich_text" ]} in
  decode_value (JDict m)
  = (x ← py_getitem (text_run (JStr "Oak ")) "text"; py_getitem x "content")
  ∧ decode_value (JDict m)
    = decode_value
        (JDict (<[ "rich_text" := JList [text_run (JStr "Oak ")] ]> m)).
Proof.
  apply (decode_value_first_run_only _ "rich_text" (text_run (JStr "Oak "))
           [text_run (JStr "tree")]).
  - by right.
  - vm_compute. reflexivity.
  - apply lookup_insert_eq.
Defined.

(** X18. A decoded row has exactly the names of the properties it was
    decoded from, each with what its property decodes to; the decoder
    neither drops nor renames nor invents a field. *)
Theorem decodeRow_keeps_names (props row : gmap string json) :
  decodeRow props = Ok row →
  dom row = dom props
  ∧ (∀ key value, props !! key = Some value →
       ∃ s, decode_value value = Ok s ∧ row !! key = Some s).
Proof.
  intros Hrow.
  assert (∀ key value, props !! key = Some value → is_Some (decoded value))
    as Hall.
  { intros key value Hkey. destruct (decoded value) as [s|] eqn:Hd; [done|].
    destruct (decodeRow_raise props) as [e He]; [by exists key, value|].
    rewrite He in Hrow. discriminate Hrow. }
  rewrite (decodeRow_ok props Hall) in Hrow. injection Hrow as <-.
  split.
  - apply set_eq. intros key. rewrite !elem_of_dom, lookup_omap.
    destruct (props !! key) as [value|] eqn:Hkey; simpl.
    + split; [done|]. intros _. by apply (Hall key).
    + split; intros [? H]; discriminate H.
  - intros key value Hkey. destruct (Hall key value Hkey) as [s Hs].
    exists s. rewrite lookup_omap, Hkey. simpl. split; [|done].
    unfold decoded in Hs. destruct (decode_value value); by inversion Hs.
Qed.

Lemma decodeRow_keeps_names_witness :
  dom sample_row = dom sample_props
  ∧ (∀ key value, sample_props !! key = Some value →
       ∃ s, decode_value value = Ok s ∧ sample_row !! key = Some s).
Proof.
  apply (decodeRow_keeps_names sample_props sample_row).
  apply decodeRow_shapes, sample_props_row.
Defined.
